(** * The item-transaction store (src/stores/itemTransactionStore.ts)

    A shallow embedding of the Pinia store [useItemTransactionStore]: its
    reactive state, its synchronous selection actions, its asynchronous
    request actions and the computed [totalAmount].

    Modelling conventions.
    - In the store, a JavaScript [number] is an integer of [Z] and
      [undefined] arguments and optional fields are [option]. The arithmetic
      of the selection ([quantity += 1], the reduce of [totalAmount]) is
      modelled a second time on IEEE doubles (the names ending in 64), for
      the properties that depend on rounding; a double is a primitive
      binary64 float of Rocq, whose operations compute as JavaScript's do.
    - Values the store never inspects (warehouses, customers, list rows,
      pagination, the posted transaction) are JSON values.
    - An action is a term of the resumption monad [Async]: reads and writes
      of the store, console output, and [await] of one HTTP request. [run]
      executes an action against a network oracle and records every write,
      log line and request in a trace. [run] takes an action from its call
      to its completion: no other action is scheduled while it awaits.
    - The types of src/types and the table of src/endpoint are not part of
      this unit: [Product.t] has the fields the store reads, the envelope
      [Resp.t] the fields [{ status, data, message?, pagination? }], and a
      request names its endpoint and arguments instead of spelling a URL. *)

From stdpp Require Import base list strings.
From Stdlib Require Import ZArith Lia.
From Stdlib Require Import PrimFloat FloatOps SpecFloat.

Local Open Scope Z_scope.

(** ** Values exchanged with the server *)

#[warnings="-register-all"]
Inductive json : Type :=
| JUndefined
| JNull
| JBool (b : bool)
| JNum (n : Z)
| JStr (s : string)
| JArr (items : list json)
| JObj (fields : list (string * json)).

(** JavaScript truthiness, as used by [if (x)], [x || y] and [x && y]. *)
Definition truthy (v : json) : bool :=
  match v with
  | JUndefined | JNull => false
  | JBool b => b
  | JNum n => negb (n =? 0)
  | JStr s => negb (String.eqb s "")
  | JArr _ | JObj _ => true
  end.


(** [n || 0] on an optional number. *)
Definition or_zero (n : option Z) : Z :=
  match n with
  | Some v => if v =? 0 then 0 else v
  | None => 0
  end.

(** Own enumerable properties of an object are kept in enumeration order. *)
Fixpoint get_field (key : string) (fields : list (string * json)) : json :=
  match fields with
  | [] => JUndefined
  | (k, v) :: rest => if String.eqb k key then v else get_field key rest
  end.

(** [v?.items]: short-circuits on [null]/[undefined]; only an object can
    own the property (an array, a string, a number or a boolean yields
    [undefined]). *)
Definition opt_items (v : json) : json :=
  match v with
  | JObj fields => get_field "items" fields
  | _ => JUndefined
  end.

(** [Object.values(o)] for an object [o]. *)
Definition Object_values (fields : list (string * json)) : list json :=
  map snd fields.

Definition JsError : Type := json.
Definition Warehouse : Type := json.
Definition Customer : Type := json.
Definition ListEntry : Type := json.
Definition Pagination : Type := json.
Definition PurchaseResponse : Type := json.
Definition Transaction : Type := json.
Definition RefundTransaction : Type := json.

Module Branch.
Record t : Type := mk { warehouses : list Warehouse }.
End Branch.
Definition BranchWithWarehouses : Type := Branch.t.

(** The response envelope [{ status, data, message?, pagination? }]. *)
Module Resp.
Record t (T : Type) : Type := mk {
  status : string;
  data : T;
  message : option string;
  pagination : option Pagination
}.
Arguments mk {T} _ _ _ _.
Arguments status {T} _.
Arguments data {T} _.
Arguments message {T} _.
Arguments pagination {T} _.
End Resp.
Definition ApiResponse (T : Type) : Type := Resp.t T.

Module Product.
Record t : Type := mk {
  id : Z;
  solo_unit_price : option Z;
  bulk_unit_price : option Z
}.
End Product.

(** ** State *)

Record SelectedItem : Type := mkSelectedItem {
  item_id : Z;
  item : Product.t;
  quantity : Z;
  unit_price : Z;
  solo_unit_price : Z;
  bulk_unit_price : Z
}.

Module Detail.
Record t : Type := mk {
  item_id : Z;
  quantity : Z;
  unit_price : Z;
  solo_unit_price : Z;
  bulk_unit_price : Z
}.
End Detail.

Inductive PaymentType : Type := cash | borrow.

Record TransactionForm : Type := mkTransactionForm {
  customer_id : option Z;
  warehouse_id : option Z;
  payment_type : PaymentType;
  note : string;
  details : list Detail.t
}.

(** The refs of the store; [list_] is the ref the source calls [list]. *)
Record Store : Type := mkStore {
  loading : bool;
  list_ : list ListEntry;
  pagination : option Pagination;
  transactions : list PurchaseResponse;
  warehouses : list Warehouse;
  customers : list Customer;
  selectedItems : list SelectedItem;
  transactionForm : TransactionForm
}.

Definition defaultForm : TransactionForm :=
  {| customer_id := None; warehouse_id := None; payment_type := cash;
     note := ""; details := [] |}.

(** The state [defineStore] starts from. *)
Definition initialStore : Store :=
  {| loading := false; list_ := []; pagination := None; transactions := [];
     warehouses := []; customers := []; selectedItems := [];
     transactionForm := defaultForm |}.

Definition with_loading (b : bool) (s : Store) : Store :=
  mkStore b (list_ s) (pagination s) (transactions s) (warehouses s)
    (customers s) (selectedItems s) (transactionForm s).
Definition with_list (l : list ListEntry) (s : Store) : Store :=
  mkStore (loading s) l (pagination s) (transactions s) (warehouses s)
    (customers s) (selectedItems s) (transactionForm s).
Definition with_pagination (p : option Pagination) (s : Store) : Store :=
  mkStore (loading s) (list_ s) p (transactions s) (warehouses s)
    (customers s) (selectedItems s) (transactionForm s).
Definition with_transactions (l : list PurchaseResponse) (s : Store) : Store :=
  mkStore (loading s) (list_ s) (pagination s) l (warehouses s)
    (customers s) (selectedItems s) (transactionForm s).
Definition with_warehouses (l : list Warehouse) (s : Store) : Store :=
  mkStore (loading s) (list_ s) (pagination s) (transactions s) l
    (customers s) (selectedItems s) (transactionForm s).
Definition with_customers (l : list Customer) (s : Store) : Store :=
  mkStore (loading s) (list_ s) (pagination s) (transactions s) (warehouses s)
    l (selectedItems s) (transactionForm s).
Definition with_selectedItems (l : list SelectedItem) (s : Store) : Store :=
  mkStore (loading s) (list_ s) (pagination s) (transactions s) (warehouses s)
    (customers s) l (transactionForm s).
Definition with_transactionForm (f : TransactionForm) (s : Store) : Store :=
  mkStore (loading s) (list_ s) (pagination s) (transactions s) (warehouses s)
    (customers s) (selectedItems s) f.

(** ** Requests *)

Inductive CustomerType : Type := supplier | customer.
Inductive ListType : Type := purchase | sell.
Inductive CreateType : Type := create_purchase | create_sale.
Inductive Currency : Type := USD | IQD.
Inductive TransactionId : Type := IdString (s : string) | IdNumber (n : Z).

Record PaymentData : Type := mkPaymentData {
  pay_customer_id : Z;
  pay_amount : Z;
  pay_note : string
}.

(** One constructor per endpoint the store calls, indexed by the type of the
    [data] the envelope is read at. *)
Inductive Request : Type -> Type :=
| GetBranchWarehouses (branchId : Z) : Request BranchWithWarehouses
| GetCustomerList (type : option CustomerType) : Request (list Customer)
| GetTransactionList (ty : ListType) (page : Z) : Request (list ListEntry)
| GetTransactionOne (id : TransactionId) (currency : Currency) : Request ListEntry
| PostTransactionCreate (ty : ListType) (body : Transaction) : Request PurchaseResponse
| PostPaySupplier (body : PaymentData) : Request json
| PostReceiveCustomer (body : PaymentData) : Request json
| PostRefund (body : RefundTransaction) : Request json
| PutFreeding (id : TransactionId) : Request json
| GetSpecialWarehouseItems (warehouseId : Z) (query : string) : Request json
| GetItemList (query : string) : Request json.

(** How the promise of a request settles. *)
Inductive Outcome (R : Type) : Type :=
| Rejected (e : JsError)
| Resolved (r : R).
Arguments Rejected {R} e.
Arguments Resolved {R} r.

Definition Network : Type := forall T : Type, Request T -> Outcome (ApiResponse T).

(** ** The action monad *)

Inductive Level : Type := warn | error.

Inductive Async (A : Type) : Type :=
| Ret (a : A)
| Throw (e : JsError)
| Read (k : Store -> Async A)
| Write (f : Store -> Store) (k : Async A)
| Console (lvl : Level) (msg : string) (k : Async A)
| Await (T : Type) (rq : Request T) (k : Outcome (ApiResponse T) -> Async A).
Arguments Ret {A} a.
Arguments Throw {A} e.
Arguments Read {A} k.
Arguments Write {A} f k.
Arguments Console {A} lvl msg k.
Arguments Await {A T} rq k.

Fixpoint bind {A B : Type} (m : Async A) (f : A -> Async B) : Async B :=
  match m with
  | Ret a => f a
  | Throw e => Throw e
  | Read k => Read (fun s => bind (k s) f)
  | Write g k => Write g (bind k f)
  | Console lvl msg k => Console lvl msg (bind k f)
  | Await rq k => Await rq (fun o => bind (k o) f)
  end.

#[global] Instance Async_ret : MRet Async := fun A a => Ret a.
#[global] Instance Async_bind : MBind Async := fun A B f m => bind m f.

(** [try { m } catch (e) { h e }] *)
Fixpoint try_catch {A : Type} (m : Async A) (h : JsError -> Async A) : Async A :=
  match m with
  | Ret a => Ret a
  | Throw e => h e
  | Read k => Read (fun s => try_catch (k s) h)
  | Write g k => Write g (try_catch k h)
  | Console lvl msg k => Console lvl msg (try_catch k h)
  | Await rq k => Await rq (fun o => try_catch (k o) h)
  end.

(** [try { m } finally { fin }]: [fin] runs on return and on throw, and the
    completion of [m] is kept unless [fin] itself throws. *)
Fixpoint try_finally {A : Type} (m : Async A) (fin : Async unit) : Async A :=
  match m with
  | Ret a => bind fin (fun _ => Ret a)
  | Throw e => bind fin (fun _ => Throw e)
  | Read k => Read (fun s => try_finally (k s) fin)
  | Write g k => Write g (try_finally k fin)
  | Console lvl msg k => Console lvl msg (try_finally k fin)
  | Await rq k => Await rq (fun o => try_finally (k o) fin)
  end.

Definition try_catch_finally {A : Type}
    (body : Async A) (handler : JsError -> Async A) (fin : Async unit) : Async A :=
  try_finally (try_catch body handler) fin.

Definition read {A : Type} (field : Store -> A) : Async A :=
  Read (fun s => Ret (field s)).
Definition write (f : Store -> Store) : Async unit := Write f (Ret tt).
Definition console (lvl : Level) (msg : string) : Async unit :=
  Console lvl msg (Ret tt).
(** [await api.get(...)]: a rejected promise throws at the [await]. *)
Definition await {T : Type} (rq : Request T) : Async (ApiResponse T) :=
  Await rq (fun o => match o with Rejected e => Throw e | Resolved r => Ret r end).

(** ** Running an action *)

Inductive Event : Type :=
| EvWrite (after : Store)
| EvConsole (lvl : Level) (msg : string)
| EvRequest (T : Type) (rq : Request T).
Arguments EvRequest {T} rq.

Record World : Type := mkWorld { store : Store; trace : list Event }.

Inductive Completion (A : Type) : Type :=
| Returned (a : A)
| Thrown (e : JsError).
Arguments Returned {A} a.
Arguments Thrown {A} e.

Definition emit (ev : Event) (w : World) : World :=
  mkWorld (store w) (trace w ++ [ev]).

Fixpoint run {A : Type} (net : Network) (m : Async A) (w : World)
    : Completion A * World :=
  match m with
  | Ret a => (Returned a, w)
  | Throw e => (Thrown e, w)
  | Read k => run net (k (store w)) w
  | Write f k =>
      let s' := f (store w) in
      run net k (mkWorld s' (trace w ++ [EvWrite s']))
  | Console lvl msg k => run net k (emit (EvConsole lvl msg) w)
  | Await rq k => run net (k (net _ rq)) (emit (EvRequest rq) w)
  end.

Definition start (s : Store) : World := mkWorld s [].

Definition result_of {A : Type} (net : Network) (m : Async A) (s : Store)
    : Completion A :=
  fst (run net m (start s)).
Definition store_after {A : Type} (net : Network) (m : Async A) (s : Store)
    : Store :=
  store (snd (run net m (start s))).
Definition trace_of {A : Type} (net : Network) (m : Async A) (s : Store)
    : list Event :=
  trace (snd (run net m (start s))).

(** ** Actions *)

Definition is_success {T : Type} (response : ApiResponse T) : bool :=
  String.eqb (Resp.status response) "success".

Definition resetForm : Async unit :=
  write (with_transactionForm defaultForm) ;;
  write (with_selectedItems []).

Definition fetchBranchWarehouses (branchId : option Z) : Async unit :=
  try_catch_finally
    (write (with_loading true) ;;
     match branchId with
     | Some b =>
         if b =? 0 then
           console warn "No branch ID provided for fetching warehouses" ;;
           write (with_warehouses [])
         else
           response ← await (GetBranchWarehouses b) ;
           if is_success response then
             write (with_warehouses (Branch.warehouses (Resp.data response)))
           else
             console error "Failed to fetch warehouses:" ;;
             write (with_warehouses [])
     | None =>
         console warn "No branch ID provided for fetching warehouses" ;;
         write (with_warehouses [])
     end)
    (fun _ =>
       console error "Error fetching branch warehouses:" ;;
       write (with_warehouses []))
    (write (with_loading false)).

Definition fetchCustomers (type : option CustomerType) : Async unit :=
  try_catch_finally
    (write (with_loading true) ;;
     response ← await (GetCustomerList type) ;
     if is_success response then
       write (with_customers (Resp.data response))
     else mret tt)
    (fun _ => console error "Error fetching customers:")
    (write (with_loading false)).

Definition fetchTransactionList (transactionType : option ListType)
    (page : option Z) : Async unit :=
  let transactionType := default purchase transactionType in
  let page := default 1 page in
  try_catch_finally
    (write (with_loading true) ;;
     response ← await (GetTransactionList transactionType page) ;
     if is_success response then
       write (with_list (Resp.data response)) ;;
       match Resp.pagination response with
       | Some p =>
           if truthy p then write (with_pagination (Some p)) else mret tt
       | None => mret tt
       end
     else mret tt)
    (fun _ => console error "Error fetching transaction list:")
    (write (with_loading false)).

Definition fetchSingleTransaction (transactionId : TransactionId)
    (currency : option Currency) : Async (option ListEntry) :=
  let currency := default USD currency in
  try_catch_finally
    (write (with_loading true) ;;
     response ← await (GetTransactionOne transactionId currency) ;
     if is_success response then mret (Some (Resp.data response))
     else mret None)
    (fun e => console error "Error fetching single transaction:" ;; Throw e)
    (write (with_loading false)).

(** [transactionType === 'purchase' ? 'purchase' : 'sell'] *)
Definition create_kind (transactionType : CreateType) : ListType :=
  match transactionType with
  | create_purchase => purchase
  | create_sale => sell
  end.

Definition createTransaction (transaction : Transaction)
    (transactionType : CreateType)
    : Async (option (ApiResponse PurchaseResponse)) :=
  try_catch_finally
    (write (with_loading true) ;;
     response ← await (PostTransactionCreate (create_kind transactionType)
                         transaction) ;
     if is_success response then
       write (fun s => with_transactions (Resp.data response :: transactions s) s) ;;
       resetForm ;;
       mret (Some response)
     else mret None)
    (fun e => console error "Error creating transaction:" ;; Throw e)
    (write (with_loading false)).

(** [Array.prototype.findIndex]: the first position satisfying [P], or -1. *)
Definition findIndex {A : Type} (P : A → Prop) `{!∀ x, Decision (P x)}
    (l : list A) : Z :=
  match list_find P l with
  | Some (i, _) => Z.of_nat i
  | None => -1
  end.

(** [Array.prototype.find]: the first element satisfying [P]. The element is
    an object of the array, so it is returned with its position, at which a
    later assignment to one of its fields takes place. *)
Definition find {A : Type} (P : A → Prop) `{!∀ x, Decision (P x)}
    (l : list A) : option (nat * A) :=
  list_find P l.

Definition set_quantity (q : Z) (si : SelectedItem) : SelectedItem :=
  mkSelectedItem (item_id si) (item si) q (unit_price si)
    (solo_unit_price si) (bulk_unit_price si).
Definition set_unit_price (p : Z) (si : SelectedItem) : SelectedItem :=
  mkSelectedItem (item_id si) (item si) (quantity si) p
    (solo_unit_price si) (bulk_unit_price si).

(** The entry [addSelectedItem] pushes for an item not yet selected. *)
Definition newSelectedItem (item : Product.t) : SelectedItem :=
  {| item_id := Product.id item;
     item := item;
     quantity := 1;
     unit_price := or_zero (Product.solo_unit_price item);
     solo_unit_price := or_zero (Product.solo_unit_price item);
     bulk_unit_price := or_zero (Product.bulk_unit_price item) |}.

Definition addSelectedItem (item : Product.t) : Async unit :=
  sel ← read selectedItems ;
  let existingIndex := findIndex (λ si, item_id si = Product.id item) sel in
  if 0 <=? existingIndex then
    match sel !! Z.to_nat existingIndex with
    | Some existingItem =>
        write (with_selectedItems
                 (<[Z.to_nat existingIndex :=
                      set_quantity (quantity existingItem + 1) existingItem]> sel))
    | None => mret tt
    end
  else
    write (with_selectedItems (sel ++ [newSelectedItem item])).

Definition removeSelectedItem (itemId : Z) : Async unit :=
  sel ← read selectedItems ;
  let index := findIndex (λ si, item_id si = itemId) sel in
  if 0 <=? index then
    write (with_selectedItems (delete (Z.to_nat index) sel))
  else mret tt.

Definition updateSelectedItemQuantity (itemId quantity : Z) : Async unit :=
  sel ← read selectedItems ;
  match find (λ si, item_id si = itemId) sel with
  | Some (i, item) =>
      if 0 <? quantity then
        write (with_selectedItems (<[i := set_quantity quantity item]> sel))
      else mret tt
  | None => mret tt
  end.

Definition updateSelectedItemPrice (itemId price : Z) : Async unit :=
  sel ← read selectedItems ;
  match find (λ si, item_id si = itemId) sel with
  | Some (i, item) =>
      if 0 <=? price then
        write (with_selectedItems (<[i := set_unit_price price item]> sel))
      else mret tt
  | None => mret tt
  end.

(** The four posting actions share one shape: post, hand back the envelope
    on success, log and re-throw on failure. *)
Definition post_and_return (rq : Request json) (msg : string)
    : Async (option (ApiResponse json)) :=
  try_catch_finally
    (write (with_loading true) ;;
     response ← await rq ;
     if is_success response then mret (Some response) else mret None)
    (fun e => console error msg ;; Throw e)
    (write (with_loading false)).

Definition paySupplier (paymentData : PaymentData) :=
  post_and_return (PostPaySupplier paymentData) "Error paying supplier:".
Definition receiveFromCustomer (paymentData : PaymentData) :=
  post_and_return (PostReceiveCustomer paymentData)
    "Error receiving payment from customer:".
Definition refundTransaction (refundData : RefundTransaction) :=
  post_and_return (PostRefund refundData) "Error processing refund:".
Definition feedingTransaction (transactionId : TransactionId) :=
  post_and_return (PutFreeding transactionId)
    "Error processing freeding (return to warehouse):".

(** [transactionType === 'sell' && warehouseId], keeping the id it holds for. *)
Definition sell_warehouse (transactionType : option ListType)
    (warehouseId : option Z) : option Z :=
  match transactionType, warehouseId with
  | Some sell, Some w => if w =? 0 then None else Some w
  | _, _ => None
  end.

Definition searchItems (searchQuery : string) (warehouseId : option Z)
    (transactionType : option ListType) : Async json :=
  try_catch_finally
    (write (with_loading true) ;;
     let endpoint :=
       match sell_warehouse transactionType warehouseId with
       | Some w => GetSpecialWarehouseItems w searchQuery
       | None => GetItemList searchQuery
       end in
     response ← await endpoint ;
     if is_success response then
       let data := Resp.data response in
       if bool_decide (is_Some (sell_warehouse transactionType warehouseId))
          && truthy (opt_items data) then
         let itemsData := opt_items data in
         match itemsData with
         | JArr _ => mret itemsData
         | JObj fields => mret (JArr (Object_values fields))
         | _ => mret (JArr [])
         end
       else mret (if truthy data then data else JArr [])
     else mret (JArr []))
    (fun e => console error "Error searching items:" ;; Throw e)
    (write (with_loading false)).

(** ** Computed *)


(** ** The operations of the store *)

Inductive Action : Type :=
| DoFetchBranchWarehouses (branchId : option Z)
| DoFetchCustomers (type : option CustomerType)
| DoFetchTransactionList (transactionType : option ListType) (page : option Z)
| DoFetchSingleTransaction (transactionId : TransactionId) (currency : option Currency)
| DoCreateTransaction (transaction : Transaction) (transactionType : CreateType)
| DoAddSelectedItem (item : Product.t)
| DoRemoveSelectedItem (itemId : Z)
| DoUpdateSelectedItemQuantity (itemId quantity : Z)
| DoUpdateSelectedItemPrice (itemId price : Z)
| DoResetForm
| DoPaySupplier (paymentData : PaymentData)
| DoReceiveFromCustomer (paymentData : PaymentData)
| DoRefundTransaction (refundData : RefundTransaction)
| DoFeedingTransaction (transactionId : TransactionId)
| DoSearchItems (searchQuery : string) (warehouseId : option Z)
    (transactionType : option ListType).

(** The store an operation leaves behind, whatever it returns or throws. *)
Definition perform (net : Network) (a : Action) (s : Store) : Store :=
  match a with
  | DoFetchBranchWarehouses b => store_after net (fetchBranchWarehouses b) s
  | DoFetchCustomers t => store_after net (fetchCustomers t) s
  | DoFetchTransactionList t p => store_after net (fetchTransactionList t p) s
  | DoFetchSingleTransaction i c => store_after net (fetchSingleTransaction i c) s
  | DoCreateTransaction t k => store_after net (createTransaction t k) s
  | DoAddSelectedItem i => store_after net (addSelectedItem i) s
  | DoRemoveSelectedItem i => store_after net (removeSelectedItem i) s
  | DoUpdateSelectedItemQuantity i q => store_after net (updateSelectedItemQuantity i q) s
  | DoUpdateSelectedItemPrice i p => store_after net (updateSelectedItemPrice i p) s
  | DoResetForm => store_after net resetForm s
  | DoPaySupplier d => store_after net (paySupplier d) s
  | DoReceiveFromCustomer d => store_after net (receiveFromCustomer d) s
  | DoRefundTransaction d => store_after net (refundTransaction d) s
  | DoFeedingTransaction i => store_after net (feedingTransaction i) s
  | DoSearchItems q w t => store_after net (searchItems q w t) s
  end.

(** A session: operations run one after the other, each against the network
    behaviour of its moment. *)
Fixpoint session (steps : list (Network * Action)) (s : Store) : Store :=
  match steps with
  | [] => s
  | (net, a) :: rest => session rest (perform net a s)
  end.

(** Item ids of the selection are pairwise distinct. *)
Definition unique_ids (s : Store) : Prop :=
  NoDup (item_id <$> selectedItems s).

(** [first_with_id itemId sel i e]: [e] is the entry [find]/[findIndex]
    selects for [itemId], the first one of [sel] carrying that id. *)
Definition first_with_id (itemId : Z) (sel : list SelectedItem)
    (i : nat) (e : SelectedItem) : Prop :=
  sel !! i = Some e ∧ item_id e = itemId ∧
  ∀ j e', sel !! j = Some e' → (j < i)%nat → item_id e' ≠ itemId.

(** No entry of [sel] carries [itemId]. *)
Definition no_entry_with_id (itemId : Z) (sel : list SelectedItem) : Prop :=
  ∀ e, e ∈ sel → item_id e ≠ itemId.


(** [keeps Inv m]: every assignment [m] can make keeps [Inv], whatever the
    requests of [m] settle to. *)
Fixpoint keeps (Inv : Store → Prop) {A : Type} (m : Async A) : Prop :=
  match m with
  | Ret _ | Throw _ => True
  | Read k => ∀ s, Inv s → keeps Inv (k s)
  | Write f k => (∀ s, Inv s → Inv (f s)) ∧ keeps Inv k
  | Console _ _ k => keeps Inv k
  | Await _ k => ∀ o, keeps Inv (k o)
  end.

(** The trace holds no request. *)
Definition no_request (tr : list Event) : Prop :=
  ∀ (T : Type) (rq : Request T), EvRequest rq ∉ tr.

(** ** Sample data *)

(** A network on which every request is rejected. *)
Definition offline : Network :=
  fun T _ => Rejected (JStr "Network Error").

(** A server answering every request with the given envelope status; the
    untyped endpoints carry [payload]. *)
Definition server (status : string) (payload : json) : Network :=
  fun T rq =>
    match rq in Request T return Outcome (ApiResponse T) with
    | GetBranchWarehouses _ =>
        Resolved (Resp.mk status (Branch.mk [JStr "main"]) None None)
    | GetCustomerList _ => Resolved (Resp.mk status [JStr "Sara"] None None)
    | GetTransactionList _ _ =>
        Resolved (Resp.mk status [JStr "row 2"] None (Some (JObj [])))
    | GetTransactionOne _ _ => Resolved (Resp.mk status (JStr "row 2") None None)
    | PostTransactionCreate _ _ =>
        Resolved (Resp.mk status (JStr "created") None None)
    | PostPaySupplier _ | PostReceiveCustomer _ | PostRefund _ | PutFreeding _
    | GetSpecialWarehouseItems _ _ | GetItemList _ =>
        Resolved (Resp.mk status payload None None)
    end.

Definition pen : Product.t := Product.mk 7 (Some 5) (Some 4).
Definition ink : Product.t := Product.mk 9 None (Some 0).

(** A store in the middle of composing a sale. *)
Definition busyStore : Store :=
  {| loading := false;
     list_ := [JStr "row 1"];
     pagination := None;
     transactions := [JStr "earlier"];
     warehouses := [JStr "depot"];
     customers := [JStr "Ali"];
     selectedItems := [newSelectedItem pen];
     transactionForm :=
       {| customer_id := Some 3; warehouse_id := Some 1;
          payment_type := borrow; note := "rush"; details := [] |} |}.

(** The selection of the spec's example: 2 at 5 and 1 at 3. *)
Definition exampleSelection : list SelectedItem :=
  [ mkSelectedItem 7 pen 2 5 5 4; mkSelectedItem 9 ink 1 3 0 0 ].

(** A warehouse's items keyed by item id. *)
Definition keyedItems : json :=
  JObj [("7", JStr "pen"); ("9", JStr "ink")].

(** ** Computed lists of customers *)

(** Reading a property of [null] or [undefined] throws a TypeError. *)
Definition nullish (v : json) : bool :=
  match v with
  | JUndefined | JNull => true
  | _ => false
  end.

(** [customer.type === tag] on an entry that is not nullish: only an object
    can own the property, and only a string is strictly equal to [tag]. *)
Definition has_type (tag : string) (customer : Customer) : bool :=
  match customer with
  | JObj fields =>
      match get_field "type" fields with
      | JStr t => String.eqb t tag
      | _ => false
      end
  | _ => false
  end.

(** [customers.value.filter(customer => customer.type === tag)]; [None]
    stands for the TypeError a nullish entry raises. *)
Definition customers_of_type (tag : string) (l : list Customer)
    : option (list Customer) :=
  if forallb (fun c => negb (nullish c)) l
  then Some (List.filter (has_type tag) l)
  else None.

Definition supplierCustomers (s : Store) : option (list Customer) :=
  customers_of_type "supplier" (customers s).

Definition regularCustomers (s : Store) : option (list Customer) :=
  customers_of_type "customer" (customers s).

(** ** Further notions used in the properties *)

(** Every selected entry has a quantity above 0. *)
Definition positive_quantities (s : Store) : Prop :=
  Forall (λ e, 0 < quantity e) (selectedItems s).

(** No selected entry has a negative unit price. *)
Definition nonnegative_prices (s : Store) : Prop :=
  Forall (λ e, 0 ≤ unit_price e) (selectedItems s).

(** The operations that issue a request. *)
Definition is_request_action (a : Action) : bool :=
  match a with
  | DoAddSelectedItem _ | DoRemoveSelectedItem _
  | DoUpdateSelectedItemQuantity _ _ | DoUpdateSelectedItemPrice _ _
  | DoResetForm => false
  | _ => true
  end.

(** The trace an operation leaves, whatever it returns or throws. *)
Definition perform_trace (net : Network) (a : Action) (s : Store) : list Event :=
  match a with
  | DoFetchBranchWarehouses b => trace_of net (fetchBranchWarehouses b) s
  | DoFetchCustomers t => trace_of net (fetchCustomers t) s
  | DoFetchTransactionList t p => trace_of net (fetchTransactionList t p) s
  | DoFetchSingleTransaction i c => trace_of net (fetchSingleTransaction i c) s
  | DoCreateTransaction t k => trace_of net (createTransaction t k) s
  | DoAddSelectedItem i => trace_of net (addSelectedItem i) s
  | DoRemoveSelectedItem i => trace_of net (removeSelectedItem i) s
  | DoUpdateSelectedItemQuantity i q => trace_of net (updateSelectedItemQuantity i q) s
  | DoUpdateSelectedItemPrice i p => trace_of net (updateSelectedItemPrice i p) s
  | DoResetForm => trace_of net resetForm s
  | DoPaySupplier d => trace_of net (paySupplier d) s
  | DoReceiveFromCustomer d => trace_of net (receiveFromCustomer d) s
  | DoRefundTransaction d => trace_of net (refundTransaction d) s
  | DoFeedingTransaction i => trace_of net (feedingTransaction i) s
  | DoSearchItems q w t => trace_of net (searchItems q w t) s
  end.




(** The operation adds no item whose solo price is negative. *)
Definition adds_no_negative_price (a : Action) : Prop :=
  match a with
  | DoAddSelectedItem item => 0 ≤ or_zero (Product.solo_unit_price item)
  | _ => True
  end.

(** The request [searchItems] sends. *)
Definition search_request (searchQuery : string) (warehouseId : option Z)
    (transactionType : option ListType) : Request json :=
  match sell_warehouse transactionType warehouseId with
  | Some w => GetSpecialWarehouseItems w searchQuery
  | None => GetItemList searchQuery
  end.

Definition thrown {A : Type} (c : Completion A) : option JsError :=
  match c with
  | Thrown e => Some e
  | Returned _ => None
  end.

(** The error an operation throws to its caller, if it throws. *)
Definition perform_thrown (net : Network) (a : Action) (s : Store)
    : option JsError :=
  match a with
  | DoFetchBranchWarehouses b => thrown (result_of net (fetchBranchWarehouses b) s)
  | DoFetchCustomers t => thrown (result_of net (fetchCustomers t) s)
  | DoFetchTransactionList t p => thrown (result_of net (fetchTransactionList t p) s)
  | DoFetchSingleTransaction i c => thrown (result_of net (fetchSingleTransaction i c) s)
  | DoCreateTransaction t k => thrown (result_of net (createTransaction t k) s)
  | DoAddSelectedItem i => thrown (result_of net (addSelectedItem i) s)
  | DoRemoveSelectedItem i => thrown (result_of net (removeSelectedItem i) s)
  | DoUpdateSelectedItemQuantity i q =>
      thrown (result_of net (updateSelectedItemQuantity i q) s)
  | DoUpdateSelectedItemPrice i p =>
      thrown (result_of net (updateSelectedItemPrice i p) s)
  | DoResetForm => thrown (result_of net resetForm s)
  | DoPaySupplier d => thrown (result_of net (paySupplier d) s)
  | DoReceiveFromCustomer d => thrown (result_of net (receiveFromCustomer d) s)
  | DoRefundTransaction d => thrown (result_of net (refundTransaction d) s)
  | DoFeedingTransaction i => thrown (result_of net (feedingTransaction i) s)
  | DoSearchItems q w t => thrown (result_of net (searchItems q w t) s)
  end.

(** The operations whose [catch] block does not re-throw, and those that
    have none. *)
Definition swallows (a : Action) : bool :=
  match a with
  | DoFetchBranchWarehouses _ | DoFetchCustomers _ | DoFetchTransactionList _ _ =>
      true
  | _ => negb (is_request_action a)
  end.

(** Customers of three kinds, for the examples. *)
Definition sampleCustomers : list Customer :=
  [ JObj [("id", JNum 1); ("type", JStr "supplier")];
    JObj [("id", JNum 2); ("type", JStr "customer")];
    JObj [("id", JNum 3); ("type", JStr "partner")];
    JObj [("id", JNum 4)] ].

(** ** The selection on IEEE doubles *)

(** An item with the fields [addSelectedItem] reads; a price may be missing. *)
Record Product64 : Type := mkProduct64 {
  id64 : Z;
  solo64 : option float;
  bulk64 : option float
}.

Record SelectedItem64 : Type := mkSelectedItem64 {
  item_id64 : Z;
  item64 : Product64;
  quantity64 : float;
  unit_price64 : float;
  solo_unit_price64 : float;
  bulk_unit_price64 : float
}.

(** [x || 0] on a double that may be missing: [undefined], [0], [-0] and
    [NaN] are falsy. *)
Definition or_zero64 (x : option float) : float :=
  match x with
  | Some v => if (v =? 0)%float || is_nan v then 0%float else v
  | None => 0%float
  end.

Definition newSelectedItem64 (item : Product64) : SelectedItem64 :=
  {| item_id64 := id64 item;
     item64 := item;
     quantity64 := 1;
     unit_price64 := or_zero64 (solo64 item);
     solo_unit_price64 := or_zero64 (solo64 item);
     bulk_unit_price64 := or_zero64 (bulk64 item) |}.

(** [existingItem.quantity += 1] *)
Definition increment64 (existingItem : SelectedItem64) : SelectedItem64 :=
  mkSelectedItem64 (item_id64 existingItem) (item64 existingItem)
    (quantity64 existingItem + 1)%float (unit_price64 existingItem)
    (solo_unit_price64 existingItem) (bulk_unit_price64 existingItem).

(** [addSelectedItem], as a function of [selectedItems.value]. *)
Definition addSelectedItem64 (item : Product64) (sel : list SelectedItem64)
    : list SelectedItem64 :=
  let existingIndex := findIndex (λ si, item_id64 si = id64 item) sel in
  if 0 <=? existingIndex then
    match sel !! Z.to_nat existingIndex with
    | Some existingItem =>
        <[Z.to_nat existingIndex := increment64 existingItem]> sel
    | None => sel
    end
  else
    sel ++ [newSelectedItem64 item].

(** The computed [totalAmount], as a function of [selectedItems.value]. *)
Definition totalAmount64 (sel : list SelectedItem64) : float :=
  fold_left
    (fun total item => (total + quantity64 item * unit_price64 item)%float)
    sel 0%float.

(** [e] is the first entry of [sel] carrying [itemId]. *)
Definition first_with_id64 (itemId : Z) (sel : list SelectedItem64)
    (i : nat) (e : SelectedItem64) : Prop :=
  sel !! i = Some e ∧ item_id64 e = itemId ∧
  ∀ j e', sel !! j = Some e' → (j < i)%nat → item_id64 e' ≠ itemId.

(** *** Exact values of doubles *)

(** A dyadic number [(m, e)] stands for [m * 2^e]. *)
Definition dyadic : Type := (Z * Z)%type.

Definition dyadic_shift (d : dyadic) (e : Z) : Z := fst d * 2 ^ (snd d - e).

Definition dyadic_add (a b : dyadic) : dyadic :=
  let e := Z.min (snd a) (snd b) in
  (dyadic_shift a e + dyadic_shift b e, e).

Definition dyadic_mul (a b : dyadic) : dyadic :=
  (fst a * fst b, snd a + snd b).

Definition dyadic_eqb (a b : dyadic) : bool :=
  let e := Z.min (snd a) (snd b) in
  dyadic_shift a e =? dyadic_shift b e.

(** The number a finite double denotes. *)
Definition value64 (x : float) : option dyadic :=
  match Prim2SF x with
  | S754_zero _ => Some (0, 0)
  | S754_finite s m e => Some (if s then Z.neg m else Z.pos m, e)
  | S754_infinity _ | S754_nan => None
  end.

(** The sum of quantity times unit price over the entries, without any
    rounding. *)
Fixpoint exact_total64 (sel : list SelectedItem64) : option dyadic :=
  match sel with
  | [] => Some (0, 0)
  | e :: rest =>
      match value64 (quantity64 e), value64 (unit_price64 e),
            exact_total64 rest with
      | Some q, Some p, Some t => Some (dyadic_add (dyadic_mul q p) t)
      | _, _, _ => None
      end
  end.

(** [totalAmount] denotes the exact sum. *)
Definition total_is_exact64 (sel : list SelectedItem64) : bool :=
  match value64 (totalAmount64 sel), exact_total64 sel with
  | Some a, Some b => dyadic_eqb a b
  | _, _ => false
  end.

(** *** Sample selections on doubles *)

Definition pen64 : Product64 := mkProduct64 7 (Some 5%float) (Some 4%float).
Definition ink64 : Product64 := mkProduct64 9 None (Some 0%float).

Definition line64 (itemId : Z) (quantity price : float) : SelectedItem64 :=
  mkSelectedItem64 itemId (mkProduct64 itemId (Some price) None)
    quantity price price 0.

(** The selection of the spec's example: 2 at 5 and 1 at 3. *)
Definition exampleSelection64 : list SelectedItem64 :=
  [ line64 7 2 5; line64 9 1 3 ].

(** * Properties *)

Ltac unfold_run :=
  unfold result_of, store_after, trace_of.

(** ** Invariants of runs *)

Section Preservation.
Variable Inv : Store → Prop.

Lemma keeps_bind {A B : Type} (m : Async A) (f : A → Async B) :
  keeps Inv m → (∀ a, keeps Inv (f a)) → keeps Inv (bind m f).
Proof.
  intros Hm Hf.
  induction m as [a|e|k IH|g k IH|l msg k IH|T rq k IH]; cbn in *; auto.
  destruct Hm; auto.
Qed.

Lemma keeps_try_catch {A : Type} (m : Async A) (h : JsError → Async A) :
  keeps Inv m → (∀ e, keeps Inv (h e)) → keeps Inv (try_catch m h).
Proof.
  intros Hm Hh.
  induction m as [a|e|k IH|g k IH|l msg k IH|T rq k IH]; cbn in *; auto.
  destruct Hm; auto.
Qed.

Lemma keeps_try_finally {A : Type} (m : Async A) (fin : Async unit) :
  keeps Inv m → keeps Inv fin → keeps Inv (try_finally m fin).
Proof.
  intros Hm Hf.
  induction m as [a|e|k IH|g k IH|l msg k IH|T rq k IH]; cbn in *; auto.
  - apply keeps_bind; cbn; auto.
  - apply keeps_bind; cbn; auto.
  - destruct Hm; auto.
Qed.

(** An action whose assignments keep [Inv] ends in a store satisfying
    [Inv], however the network behaves. *)
Lemma run_keeps {A : Type} (net : Network) (m : Async A) (w : World) :
  keeps Inv m → Inv (store w) → Inv (store (snd (run net m w))).
Proof.
  revert w.
  induction m as [a|e|k IH|g k IH|l msg k IH|T rq k IH];
    intros w Hm Hw; cbn in *; auto.
  destruct Hm as [Hg Hk]. apply IH; cbn; auto.
Qed.
End Preservation.

(** ** The entry an id selects *)

Lemma first_with_id_find itemId (sel : list SelectedItem) i e :
  first_with_id itemId sel i e ↔
  list_find (λ si, item_id si = itemId) sel = Some (i, e).
Proof. unfold first_with_id. rewrite list_find_Some. reflexivity. Qed.

Lemma no_entry_with_id_find itemId (sel : list SelectedItem) :
  no_entry_with_id itemId sel ↔
  list_find (λ si, item_id si = itemId) sel = None.
Proof.
  unfold no_entry_with_id. rewrite list_find_None, Forall_forall. reflexivity.
Qed.

Lemma first_with_id_pushed itemId (sel : list SelectedItem) e :
  no_entry_with_id itemId sel → item_id e = itemId →
  first_with_id itemId (sel ++ [e]) (length sel) e.
Proof.
  intros Hno He. split; [|split].
  - rewrite lookup_app_r by lia. rewrite Nat.sub_diag. reflexivity.
  - exact He.
  - intros j e' Hj Hlt. rewrite lookup_app_l in Hj by exact Hlt.
    apply Hno. eapply list_elem_of_lookup_2. exact Hj.
Qed.

Lemma ids_after_set_quantity (sel : list SelectedItem) i e q :
  sel !! i = Some e →
  item_id <$> (<[i := set_quantity q e]> sel) = item_id <$> sel.
Proof.
  intros H. rewrite list_fmap_insert. cbn.
  apply list_insert_id. rewrite list_lookup_fmap, H. reflexivity.
Qed.

Lemma ids_after_set_unit_price (sel : list SelectedItem) i e p :
  sel !! i = Some e →
  item_id <$> (<[i := set_unit_price p e]> sel) = item_id <$> sel.
Proof.
  intros H. rewrite list_fmap_insert. cbn.
  apply list_insert_id. rewrite list_lookup_fmap, H. reflexivity.
Qed.

Lemma NoDup_push (sel : list SelectedItem) (x : SelectedItem) :
  list_find (λ si, item_id si = item_id x) sel = None →
  NoDup (item_id <$> sel) → NoDup (item_id <$> (sel ++ [x])).
Proof.
  intros Hnone Hnd. rewrite fmap_app. cbn.
  apply NoDup_app. split; [exact Hnd|]. split.
  - intros y Hy Hin. apply list_elem_of_singleton in Hin. subst y.
    apply list_elem_of_fmap in Hy. destruct Hy as [e [He Hin]].
    apply list_find_None in Hnone.
    rewrite Forall_forall in Hnone. apply (Hnone e Hin). symmetry; exact He.
  - apply NoDup_singleton.
Qed.

Lemma NoDup_splice (sel : list SelectedItem) i :
  NoDup (item_id <$> sel) → NoDup (item_id <$> delete i sel).
Proof.
  intros H. eapply sublist_NoDup; [exact H|].
  apply fmap_sublist. apply sublist_delete.
Qed.

(** ** What each selection action leaves in the store *)

Lemma addSelectedItem_store (net : Network) item s :
  store_after net (addSelectedItem item) s =
  match list_find (λ si, item_id si = Product.id item) (selectedItems s) with
  | Some (i, e) =>
      with_selectedItems
        (<[i := set_quantity (quantity e + 1) e]> (selectedItems s)) s
  | None => with_selectedItems (selectedItems s ++ [newSelectedItem item]) s
  end.
Proof.
  unfold_run. unfold addSelectedItem, findIndex. cbn.
  destruct (list_find _ (selectedItems s)) as [[i e]|] eqn:Hf; cbn.
  - destruct (Z.leb_spec 0 (Z.of_nat i)) as [_|Hneg]; [|lia].
    rewrite Nat2Z.id.
    apply list_find_Some in Hf as (Hi & _ & _). rewrite Hi. reflexivity.
  - reflexivity.
Qed.

Lemma updateSelectedItemQuantity_store (net : Network) itemId q s :
  store_after net (updateSelectedItemQuantity itemId q) s =
  match list_find (λ si, item_id si = itemId) (selectedItems s) with
  | Some (i, e) =>
      if 0 <? q
      then with_selectedItems (<[i := set_quantity q e]> (selectedItems s)) s
      else s
  | None => s
  end.
Proof.
  unfold_run. unfold updateSelectedItemQuantity, find. cbn.
  destruct (list_find _ (selectedItems s)) as [[i e]|]; cbn; [|reflexivity].
  destruct (0 <? q); reflexivity.
Qed.

Lemma updateSelectedItemPrice_store (net : Network) itemId p s :
  store_after net (updateSelectedItemPrice itemId p) s =
  match list_find (λ si, item_id si = itemId) (selectedItems s) with
  | Some (i, e) =>
      if 0 <=? p
      then with_selectedItems (<[i := set_unit_price p e]> (selectedItems s)) s
      else s
  | None => s
  end.
Proof.
  unfold_run. unfold updateSelectedItemPrice, find. cbn.
  destruct (list_find _ (selectedItems s)) as [[i e]|]; cbn; [|reflexivity].
  destruct (0 <=? p); reflexivity.
Qed.

(** ** What the request actions do, by how the request settles *)

Lemma run_createTransaction (net : Network) tx ty s :
  run net (createTransaction tx ty) (start s) =
  let rq := PostTransactionCreate (create_kind ty) tx in
  let s1 := with_loading true s in
  match net _ rq with
  | Rejected e =>
      (Thrown e,
       mkWorld (with_loading false s1)
         [EvWrite s1; EvRequest rq;
          EvConsole error "Error creating transaction:";
          EvWrite (with_loading false s1)])
  | Resolved response =>
      if is_success response then
        let s2 := with_transactions (Resp.data response :: transactions s1) s1 in
        let s3 := with_transactionForm defaultForm s2 in
        let s4 := with_selectedItems [] s3 in
        (Returned (Some response),
         mkWorld (with_loading false s4)
           [EvWrite s1; EvRequest rq; EvWrite s2; EvWrite s3; EvWrite s4;
            EvWrite (with_loading false s4)])
      else
        (Returned None,
         mkWorld (with_loading false s1)
           [EvWrite s1; EvRequest rq; EvWrite (with_loading false s1)])
  end.
Proof.
  unfold createTransaction, try_catch_finally. cbn.
  destruct (net _ _) as [e|response]; cbn; [reflexivity|].
  destruct (is_success response); reflexivity.
Qed.

Lemma run_fetchCustomers (net : Network) type s :
  run net (fetchCustomers type) (start s) =
  let rq := GetCustomerList type in
  let s1 := with_loading true s in
  match net _ rq with
  | Rejected e =>
      (Returned tt,
       mkWorld (with_loading false s1)
         [EvWrite s1; EvRequest rq; EvConsole error "Error fetching customers:";
          EvWrite (with_loading false s1)])
  | Resolved response =>
      if is_success response then
        let s2 := with_customers (Resp.data response) s1 in
        (Returned tt,
         mkWorld (with_loading false s2)
           [EvWrite s1; EvRequest rq; EvWrite s2; EvWrite (with_loading false s2)])
      else
        (Returned tt,
         mkWorld (with_loading false s1)
           [EvWrite s1; EvRequest rq; EvWrite (with_loading false s1)])
  end.
Proof.
  unfold fetchCustomers, try_catch_finally. cbn.
  destruct (net _ _) as [e|response]; cbn; [reflexivity|].
  destruct (is_success response); reflexivity.
Qed.

(** A successful creation prepends the created record and resets the form
    and the selection. *)
Lemma createTransaction_success (net : Network) tx ty response s :
  net _ (PostTransactionCreate (create_kind ty) tx) = Resolved response →
  Resp.status response = "success" →
  result_of net (createTransaction tx ty) s = Returned (Some response) ∧
  transactions (store_after net (createTransaction tx ty) s)
    = Resp.data response :: transactions s ∧
  transactionForm (store_after net (createTransaction tx ty) s) = defaultForm ∧
  selectedItems (store_after net (createTransaction tx ty) s) = [].
Proof.
  intros H Hst. unfold_run. rewrite run_createTransaction. cbn. rewrite H.
  unfold is_success. rewrite Hst. cbn. auto.
Qed.

(** ** The model on concrete calls *)

Example fetchBranchWarehouses_success :
  store_after (server "success" JNull) (fetchBranchWarehouses (Some 4)) busyStore
  = with_warehouses [JStr "main"] busyStore.
Proof. reflexivity. Qed.

Example fetchBranchWarehouses_non_success :
  store_after (server "error" JNull) (fetchBranchWarehouses (Some 4)) busyStore
  = with_warehouses [] busyStore.
Proof. reflexivity. Qed.

Example fetchTransactionList_success :
  store_after (server "success" JNull) (fetchTransactionList None (Some 2)) busyStore
  = with_pagination (Some (JObj [])) (with_list [JStr "row 2"] busyStore) ∧
  trace_of (server "success" JNull) (fetchTransactionList None (Some 2)) initialStore
  = [EvWrite (with_loading true initialStore);
     EvRequest (GetTransactionList purchase 2);
     EvWrite (with_list [JStr "row 2"] (with_loading true initialStore));
     EvWrite (with_pagination (Some (JObj []))
                (with_list [JStr "row 2"] (with_loading true initialStore)));
     EvWrite (with_pagination (Some (JObj []))
                (with_list [JStr "row 2"] initialStore))].
Proof. split; reflexivity. Qed.

Example createTransaction_success_example :
  result_of (server "success" JNull)
    (createTransaction (JStr "sale") create_sale) busyStore
  = Returned (Some (Resp.mk "success" (JStr "created") None None)) ∧
  store_after (server "success" JNull)
    (createTransaction (JStr "sale") create_sale) busyStore
  = {| loading := false;
       list_ := [JStr "row 1"];
       pagination := None;
       transactions := [JStr "created"; JStr "earlier"];
       warehouses := [JStr "depot"];
       customers := [JStr "Ali"];
       selectedItems := [];
       transactionForm := defaultForm |}.
Proof. split; reflexivity. Qed.

Example removeSelectedItem_example :
  selectedItems (store_after offline (removeSelectedItem 7)
                   (with_selectedItems exampleSelection busyStore))
  = [mkSelectedItem 9 ink 1 3 0 0] ∧
  store_after offline (removeSelectedItem 8) busyStore = busyStore.
Proof. split; reflexivity. Qed.

Example searchItems_purchase_example :
  result_of (server "success" (JArr [JStr "pen"]))
    (searchItems "p" (Some 2) (Some purchase)) busyStore
  = Returned (JArr [JStr "pen"]) ∧
  trace_of (server "success" (JArr [JStr "pen"]))
    (searchItems "p" (Some 2) (Some purchase)) initialStore
  = [EvWrite (with_loading true initialStore);
     EvRequest (GetItemList "p");
     EvWrite initialStore] ∧
  result_of offline (searchItems "p" (Some 2) (Some sell)) busyStore
  = Thrown (JStr "Network Error").
Proof. repeat split. Qed.

(** ** Error handling of [createTransaction] *)

(** C1: when the request of [createTransaction] is rejected, the error is
    re-thrown to the caller, [transactions] is unchanged, and neither the
    transaction form nor [selectedItems] is reset: the store differs from
    the one the call started in by [loading = false] only. *)
Theorem createTransaction_failure_rethrown (net : Network) tx ty e s :
  net _ (PostTransactionCreate (create_kind ty) tx) = Rejected e →
  result_of net (createTransaction tx ty) s = Thrown e ∧
  transactions (store_after net (createTransaction tx ty) s) = transactions s ∧
  transactionForm (store_after net (createTransaction tx ty) s) = transactionForm s ∧
  selectedItems (store_after net (createTransaction tx ty) s) = selectedItems s ∧
  store_after net (createTransaction tx ty) s = with_loading false s.
Proof.
  intros H. unfold_run. rewrite run_createTransaction. cbn. rewrite H. cbn.
  auto.
Qed.

Lemma createTransaction_failure_rethrown_witness :
  result_of offline (createTransaction (JStr "sale") create_sale) busyStore
    = Thrown (JStr "Network Error") ∧
  transactions
    (store_after offline (createTransaction (JStr "sale") create_sale) busyStore)
    = [JStr "earlier"] ∧
  store_after offline (createTransaction (JStr "sale") create_sale) busyStore
    = busyStore.
Proof.
  destruct (createTransaction_failure_rethrown offline (JStr "sale") create_sale
              (JStr "Network Error") busyStore eq_refl) as (Hr & Ht & _ & _ & Hs).
  split; [exact Hr | split; [exact Ht | exact Hs]].
Defined.

(** C10: when the request of [createTransaction] completes with an envelope
    whose status is not 'success', the call returns [undefined] without
    throwing, prepends nothing to [transactions] and resets neither the form
    nor the selection. *)
Theorem createTransaction_non_success (net : Network) tx ty response s :
  net _ (PostTransactionCreate (create_kind ty) tx) = Resolved response →
  Resp.status response ≠ "success" →
  result_of net (createTransaction tx ty) s = Returned None ∧
  transactions (store_after net (createTransaction tx ty) s) = transactions s ∧
  transactionForm (store_after net (createTransaction tx ty) s) = transactionForm s ∧
  selectedItems (store_after net (createTransaction tx ty) s) = selectedItems s ∧
  store_after net (createTransaction tx ty) s = with_loading false s.
Proof.
  intros H Hst. unfold_run. rewrite run_createTransaction. cbn. rewrite H.
  unfold is_success. apply String.eqb_neq in Hst. rewrite Hst. cbn. auto.
Qed.

Lemma createTransaction_non_success_witness :
  result_of (server "error" JNull)
    (createTransaction (JStr "sale") create_sale) busyStore = Returned None ∧
  store_after (server "error" JNull)
    (createTransaction (JStr "sale") create_sale) busyStore = busyStore.
Proof.
  destruct (createTransaction_non_success (server "error" JNull) (JStr "sale")
              create_sale (Resp.mk "error" (JStr "created") None None) busyStore
              eq_refl) as (Hr & _ & _ & _ & Hs).
  - discriminate.
  - split; [exact Hr | exact Hs].
Defined.

(** ** Error handling of the read operations *)

(** C2 as stated fails: with every request rejected, [fetchCustomers] and
    [fetchTransactionList] return normally but keep the customers and the
    rows the store already held. *)
Lemma failed_fetch_keeps_stale_data :
  result_of offline (fetchCustomers None) busyStore = Returned tt ∧
  customers (store_after offline (fetchCustomers None) busyStore) = [JStr "Ali"] ∧
  customers (store_after offline (fetchCustomers None) busyStore) ≠ [] ∧
  result_of offline (fetchTransactionList None None) busyStore = Returned tt ∧
  list_ (store_after offline (fetchTransactionList None None) busyStore)
    = [JStr "row 1"] ∧
  list_ (store_after offline (fetchTransactionList None None) busyStore) ≠ [].
Proof. vm_compute. repeat split; discriminate. Qed.

(** C2, amended: each of the three read operations swallows the error of
    its rejected request and returns normally. [fetchBranchWarehouses] then
    leaves [warehouses] empty; [fetchCustomers] and [fetchTransactionList]
    leave [customers], [list] and [pagination] as they were. Nothing else
    but [loading], which ends false, is assigned. *)
Theorem read_failure_swallowed (net : Network) s :
  (∀ b e, net _ (GetBranchWarehouses b) = Rejected e →
     result_of net (fetchBranchWarehouses (Some b)) s = Returned tt ∧
     warehouses (store_after net (fetchBranchWarehouses (Some b)) s) = [] ∧
     store_after net (fetchBranchWarehouses (Some b)) s
     = {| loading := false; list_ := list_ s; pagination := pagination s;
          transactions := transactions s; warehouses := [];
          customers := customers s; selectedItems := selectedItems s;
          transactionForm := transactionForm s |}) ∧
  (∀ type e, net _ (GetCustomerList type) = Rejected e →
     result_of net (fetchCustomers type) s = Returned tt ∧
     customers (store_after net (fetchCustomers type) s) = customers s ∧
     store_after net (fetchCustomers type) s
     = {| loading := false; list_ := list_ s; pagination := pagination s;
          transactions := transactions s; warehouses := warehouses s;
          customers := customers s; selectedItems := selectedItems s;
          transactionForm := transactionForm s |}) ∧
  (∀ ty page e,
     net _ (GetTransactionList (default purchase ty) (default 1 page))
       = Rejected e →
     result_of net (fetchTransactionList ty page) s = Returned tt ∧
     list_ (store_after net (fetchTransactionList ty page) s) = list_ s ∧
     pagination (store_after net (fetchTransactionList ty page) s)
       = pagination s ∧
     store_after net (fetchTransactionList ty page) s
     = {| loading := false; list_ := list_ s; pagination := pagination s;
          transactions := transactions s; warehouses := warehouses s;
          customers := customers s; selectedItems := selectedItems s;
          transactionForm := transactionForm s |}).
Proof.
  unfold_run. split; [|split].
  - intros b e H. unfold fetchBranchWarehouses, try_catch_finally. cbn.
    destruct (b =? 0); cbn; [|rewrite H]; repeat split.
  - intros type e H. rewrite run_fetchCustomers. cbn. rewrite H.
    repeat split.
  - intros ty page e H. unfold fetchTransactionList, try_catch_finally. cbn.
    rewrite H. repeat split.
Qed.

Lemma read_failure_swallowed_witness :
  warehouses (store_after offline (fetchBranchWarehouses (Some 4)) busyStore) = [] ∧
  customers (store_after offline (fetchCustomers None) busyStore) = [JStr "Ali"] ∧
  list_ (store_after offline (fetchTransactionList None None) busyStore)
    = [JStr "row 1"].
Proof.
  destruct (read_failure_swallowed offline busyStore) as (Hw & Hc & Hl).
  destruct (Hw 4 (JStr "Network Error") eq_refl) as (_ & Hw' & _).
  destruct (Hc None (JStr "Network Error") eq_refl) as (_ & Hc' & _).
  destruct (Hl None None (JStr "Network Error") eq_refl) as (_ & Hl' & _).
  split; [exact Hw' | split; [exact Hc' | exact Hl']].
Defined.

(** C8: called without a branch id, [fetchBranchWarehouses] sets [loading]
    to true first, warns, sets [warehouses] to the empty list, sets
    [loading] to false last, and issues no request. *)
Theorem fetchBranchWarehouses_without_branch (net : Network) s :
  let s1 := with_loading true s in
  let s2 := with_warehouses [] s1 in
  let s3 := with_loading false s2 in
  result_of net (fetchBranchWarehouses None) s = Returned tt ∧
  trace_of net (fetchBranchWarehouses None) s =
    [EvWrite s1;
     EvConsole warn "No branch ID provided for fetching warehouses";
     EvWrite s2; EvWrite s3] ∧
  store_after net (fetchBranchWarehouses None) s = s3 ∧
  loading s1 = true ∧ warehouses s3 = [] ∧ loading s3 = false ∧
  no_request (trace_of net (fetchBranchWarehouses None) s).
Proof.
  cbn. unfold_run. unfold fetchBranchWarehouses, try_catch_finally. cbn.
  repeat split.
  intros T rq Hin. cbn in Hin.
  repeat (apply elem_of_cons in Hin as [Hin|Hin]; [discriminate Hin|]).
  inversion Hin.
Qed.

(** The branch id 0 is falsy and takes the same short cut. *)
Lemma fetchBranchWarehouses_branch_zero (net : Network) s :
  run net (fetchBranchWarehouses (Some 0)) (start s)
  = run net (fetchBranchWarehouses None) (start s).
Proof. reflexivity. Qed.

(** ** The selection *)

(** *** Adding, on doubles *)

Lemma first_with_id64_find itemId (sel : list SelectedItem64) i e :
  first_with_id64 itemId sel i e ↔
  list_find (λ si, item_id64 si = itemId) sel = Some (i, e).
Proof. unfold first_with_id64. rewrite list_find_Some. reflexivity. Qed.

Lemma addSelectedItem64_cases (item : Product64) (sel : list SelectedItem64) :
  addSelectedItem64 item sel =
  match list_find (λ si, item_id64 si = id64 item) sel with
  | Some (i, e) => <[i := increment64 e]> sel
  | None => sel ++ [newSelectedItem64 item]
  end.
Proof.
  unfold addSelectedItem64, findIndex.
  destruct (list_find _ sel) as [[i e]|] eqn:Hf; cbn.
  - destruct (Z.leb_spec 0 (Z.of_nat i)) as [_|Hneg]; [|lia].
    rewrite Nat2Z.id.
    apply list_find_Some in Hf as (Hi & _ & _). rewrite Hi. reflexivity.
  - reflexivity.
Qed.

(** C3 as stated fails: in an entry whose quantity is 2^53 the sum
    [quantity + 1] rounds back to 2^53, so the call leaves the selection as
    it is. *)
Lemma addSelectedItem64_stuck_at_2_53 :
  addSelectedItem64 pen64 [line64 7 9007199254740992 5]
  = [line64 7 9007199254740992 5] ∧
  (quantity64 (line64 7 9007199254740992 5) + 1)%float
  = quantity64 (line64 7 9007199254740992 5).
Proof. split; vm_compute; reflexivity. Qed.

(** C3, amended: when an entry carries the item's id, [addSelectedItem]
    replaces the quantity of the first such entry by [quantity + 1] in
    double arithmetic and changes nothing else, adding no entry; otherwise it
    appends an entry of quantity 1 whose unit price and solo price are the
    item's solo price and whose bulk price is the item's bulk price, each
    replaced by 0 when it is missing, zero or NaN. Adding an unselected item
    twice yields one entry of quantity 2. *)
Theorem addSelectedItem64_increments_or_appends
    (item : Product64) (sel : list SelectedItem64) :
  let seed := fun x : option float =>
    match x with
    | Some v => if (v =? 0)%float || negb (v =? v)%float then 0%float else v
    | None => 0%float
    end in
  let appended := fun quantity : float =>
    {| item_id64 := id64 item;
       item64 := item;
       quantity64 := quantity;
       unit_price64 := seed (solo64 item);
       solo_unit_price64 := seed (solo64 item);
       bulk_unit_price64 := seed (bulk64 item) |} in
  (∀ i e, first_with_id64 (id64 item) sel i e →
     addSelectedItem64 item sel
     = <[i := {| item_id64 := item_id64 e;
                 item64 := item64 e;
                 quantity64 := (quantity64 e + 1)%float;
                 unit_price64 := unit_price64 e;
                 solo_unit_price64 := solo_unit_price64 e;
                 bulk_unit_price64 := bulk_unit_price64 e |}]> sel ∧
     length (addSelectedItem64 item sel) = length sel ∧
     (∀ j, j ≠ i → addSelectedItem64 item sel !! j = sel !! j)) ∧
  ((∀ e, e ∈ sel → item_id64 e ≠ id64 item) →
     addSelectedItem64 item sel = sel ++ [appended 1%float] ∧
     addSelectedItem64 item (addSelectedItem64 item sel)
     = sel ++ [appended 2%float]).
Proof.
  intros seed appended. split.
  - intros i e Hfirst. apply first_with_id64_find in Hfirst.
    rewrite addSelectedItem64_cases, Hfirst.
    split; [reflexivity|]. split; [apply length_insert|].
    intros j Hj. apply list_lookup_insert_ne. congruence.
  - intros Hno.
    assert (Hnone : list_find (λ si, item_id64 si = id64 item) sel = None).
    { apply list_find_None. apply Forall_forall. exact Hno. }
    assert (Hfirst : list_find (λ si, item_id64 si = id64 item)
                       (sel ++ [newSelectedItem64 item])
                     = Some (length sel, newSelectedItem64 item)).
    { apply list_find_Some. split; [|split].
      - rewrite lookup_app_r by lia. rewrite Nat.sub_diag. reflexivity.
      - reflexivity.
      - intros j e' Hj Hlt. rewrite lookup_app_l in Hj by exact Hlt.
        apply Hno. eapply list_elem_of_lookup_2. exact Hj. }
    rewrite !addSelectedItem64_cases, Hnone, Hfirst.
    split; [reflexivity|].
    replace (length sel) with (length sel + 0)%nat by lia.
    rewrite insert_app_r. reflexivity.
Qed.

Lemma addSelectedItem64_increments_or_appends_witness :
  addSelectedItem64 pen64 [line64 7 2 5; line64 9 1 3]
    = [line64 7 3 5; line64 9 1 3] ∧
  addSelectedItem64 pen64 [line64 9 1 3]
    = [line64 9 1 3; mkSelectedItem64 7 pen64 1 5 5 4] ∧
  addSelectedItem64 ink64 (addSelectedItem64 ink64 [line64 7 2 5])
    = [line64 7 2 5; mkSelectedItem64 9 ink64 2 0 0 0].
Proof.
  destruct (addSelectedItem64_increments_or_appends pen64
              [line64 7 2 5; line64 9 1 3]) as (Hpresent & _).
  destruct (addSelectedItem64_increments_or_appends pen64 [line64 9 1 3])
    as (_ & Habsent).
  destruct (addSelectedItem64_increments_or_appends ink64 [line64 7 2 5])
    as (_ & Htwice).
  split; [|split].
  - destruct (Hpresent 0%nat (line64 7 2 5)) as (H & _); [|exact H].
    split; [reflexivity|]. split; [reflexivity|]. intros j e' _ Hj. lia.
  - destruct Habsent as (H & _); [|exact H].
    intros e He. apply list_elem_of_singleton in He. subst e. cbn. lia.
  - destruct Htwice as (_ & H); [|exact H].
    intros e He. apply list_elem_of_singleton in He. subst e. cbn. lia.
Defined.



(** C6: [resetForm] puts the form back to its defaults (no customer, no
    warehouse, payment type 'cash', empty note, no details) and empties
    [selectedItems] in the same call, touching nothing else. *)
Theorem resetForm_resets_both (net : Network) s :
  let s' := store_after net resetForm s in
  result_of net resetForm s = Returned tt ∧
  transactionForm s' = defaultForm ∧
  customer_id (transactionForm s') = None ∧
  warehouse_id (transactionForm s') = None ∧
  payment_type (transactionForm s') = cash ∧
  note (transactionForm s') = "" ∧
  details (transactionForm s') = [] ∧
  selectedItems s' = [] ∧
  s' = with_selectedItems [] (with_transactionForm defaultForm s).
Proof. cbn. repeat split. Qed.

(** ** The total *)


(** *** The total on doubles *)

(** C7 as stated fails: the total is a rounded sum. For 3 at 0.1 it is not
    the number 3 times 0.1 (as doubles denote them); and for three entries
    priced 0.1, 0.2 and 0.3 it depends on the order of the entries, which a
    sum over the entries does not. *)
#[warnings="-inexact-float"]
Lemma totalAmount64_is_not_the_exact_sum :
  total_is_exact64 [line64 7 3 0.1] = false ∧
  totalAmount64 [line64 1 1 0.1; line64 2 1 0.2; line64 3 1 0.3]
    = 0.6000000000000001%float ∧
  totalAmount64 [line64 3 1 0.3; line64 2 1 0.2; line64 1 1 0.1]
    = 0.6%float ∧
  (0.6000000000000001 =? 0.6)%float = false.
Proof. repeat split; vm_compute; reflexivity. Qed.

(** C7, amended: [totalAmount] is the sum of quantity times unit price
    accumulated in double arithmetic, in the order of the list, from 0: it
    is 0 for the empty list, and an entry at the end of the list adds its
    rounded product to the total of the entries before it, with one more
    rounding. For 2 at 5 plus 1 at 3 it is 13, which is the exact sum. *)
Theorem totalAmount64_accumulates :
  totalAmount64 [] = 0%float ∧
  (∀ sel e,
     totalAmount64 (sel ++ [e])
     = (totalAmount64 sel + quantity64 e * unit_price64 e)%float) ∧
  totalAmount64 exampleSelection64 = 13%float ∧
  total_is_exact64 exampleSelection64 = true.
Proof.
  split; [reflexivity|]. split.
  - intros sel e. unfold totalAmount64. rewrite fold_left_app. reflexivity.
  - split; vm_compute; reflexivity.
Qed.

(** ** Item search *)

(** C9 as stated fails for the warehouse id 0: the id is falsy, the search
    goes to the general item endpoint and a successful answer whose
    [data.items] is a keyed map is handed back whole. *)
Lemma searchItems_warehouse_zero_returns_data :
  result_of (server "success" (JObj [("items", keyedItems)]))
    (searchItems "p" (Some 0) (Some sell)) busyStore
    = Returned (JObj [("items", JObj [("7", JStr "pen"); ("9", JStr "ink")])]) ∧
  result_of (server "success" (JObj [("items", keyedItems)]))
    (searchItems "p" (Some 0) (Some sell)) busyStore
    ≠ Returned (JArr [JStr "pen"; JStr "ink"]) ∧
  trace_of (server "success" (JObj [("items", keyedItems)]))
    (searchItems "p" (Some 0) (Some sell)) initialStore
    = [EvWrite (with_loading true initialStore);
       EvRequest (GetItemList "p");
       EvWrite initialStore].
Proof. split; [reflexivity|]. split; [discriminate | reflexivity]. Qed.

(** C9, amended: a 'sell' search with a warehouse id other than 0 whose
    request succeeds with [data.items] a keyed map returns the values of the
    map as a list, in the order the map enumerates them; with [data.items]
    an array it returns that array as it is. *)
Theorem searchItems_normalizes_items (net : Network) query w response fields s :
  w ≠ 0 →
  net _ (GetSpecialWarehouseItems w query) = Resolved response →
  Resp.status response = "success" →
  Resp.data response = JObj fields →
  (∀ entries, get_field "items" fields = JObj entries →
     result_of net (searchItems query (Some w) (Some sell)) s
       = Returned (JArr (map snd entries))) ∧
  (∀ elements, get_field "items" fields = JArr elements →
     result_of net (searchItems query (Some w) (Some sell)) s
       = Returned (JArr elements)).
Proof.
  intros Hw Hnet Hst Hdata. apply Z.eqb_neq in Hw.
  assert (Hrun : ∀ itemsData, get_field "items" fields = itemsData →
            truthy itemsData = true →
            result_of net (searchItems query (Some w) (Some sell)) s =
            Returned match itemsData with
                     | JArr _ => itemsData
                     | JObj entries => JArr (map snd entries)
                     | _ => JArr []
                     end).
  { intros itemsData Hitems Htruthy. unfold_run.
    unfold searchItems, try_catch_finally, sell_warehouse. cbn.
    rewrite Hw. cbn. rewrite Hnet. cbn.
    unfold is_success. rewrite Hst. cbn.
    rewrite Hdata. cbn. rewrite Hitems, Htruthy.
    destruct itemsData; reflexivity. }
  split; intros l Hl; apply (Hrun _ Hl); reflexivity.
Qed.

Lemma searchItems_normalizes_items_witness :
  result_of (server "success" (JObj [("items", keyedItems)]))
    (searchItems "p" (Some 2) (Some sell)) busyStore
    = Returned (JArr [JStr "pen"; JStr "ink"]) ∧
  result_of (server "success" (JObj [("items", JArr [JStr "pen"])]))
    (searchItems "p" (Some 2) (Some sell)) busyStore
    = Returned (JArr [JStr "pen"]).
Proof.
  assert (H2 : 2 ≠ 0) by lia.
  split.
  - exact (proj1 (searchItems_normalizes_items
                    (server "success" (JObj [("items", keyedItems)])) "p" 2
                    (Resp.mk "success" (JObj [("items", keyedItems)]) None None)
                    [("items", keyedItems)] busyStore
                    H2 eq_refl eq_refl eq_refl)
             [("7", JStr "pen"); ("9", JStr "ink")] eq_refl).
  - exact (proj2 (searchItems_normalizes_items
                    (server "success" (JObj [("items", JArr [JStr "pen"])])) "p" 2
                    (Resp.mk "success" (JObj [("items", JArr [JStr "pen"])]) None None)
                    [("items", JArr [JStr "pen"])] busyStore
                    H2 eq_refl eq_refl eq_refl)
             [JStr "pen"] eq_refl).
Defined.

(** With the warehouse id 0, or for a purchase, the search goes to the
    general item endpoint and hands back [data] itself. *)
Lemma searchItems_general_endpoint (net : Network) query w ty response s :
  sell_warehouse ty w = None →
  net _ (GetItemList query) = Resolved response →
  Resp.status response = "success" →
  result_of net (searchItems query w ty) s
  = Returned (if truthy (Resp.data response) then Resp.data response else JArr []).
Proof.
  intros Hsw Hnet Hst. unfold_run. unfold searchItems, try_catch_finally. cbn.
  rewrite Hsw. cbn. rewrite Hnet. cbn. unfold is_success. rewrite Hst. cbn.
  destruct (truthy (Resp.data response)); reflexivity.
Qed.

(** ** Unique item ids *)

Lemma keeps_addSelectedItem item : keeps unique_ids (addSelectedItem item).
Proof.
  unfold addSelectedItem, unique_ids, findIndex. cbn. intros s Hs.
  destruct (list_find _ (selectedItems s)) as [[i e]|] eqn:Hf; cbn.
  - destruct (Z.leb_spec 0 (Z.of_nat i)) as [_|Hneg]; [|lia].
    rewrite Nat2Z.id.
    apply list_find_Some in Hf as (Hi & _ & _). rewrite Hi. cbn.
    split; [|exact I]. intros s' _. cbn.
    rewrite ids_after_set_quantity; assumption.
  - split; [|exact I]. intros s' _. cbn. apply NoDup_push; assumption.
Qed.

Lemma keeps_removeSelectedItem itemId :
  keeps unique_ids (removeSelectedItem itemId).
Proof.
  unfold removeSelectedItem, unique_ids. cbn. intros s Hs.
  destruct (0 <=? _); cbn; [|exact I].
  split; [|exact I]. intros s' _. cbn. apply NoDup_splice; assumption.
Qed.

Lemma keeps_updateSelectedItemQuantity itemId q :
  keeps unique_ids (updateSelectedItemQuantity itemId q).
Proof.
  unfold updateSelectedItemQuantity, unique_ids, find. cbn. intros s Hs.
  destruct (list_find _ (selectedItems s)) as [[i e]|] eqn:Hf; cbn; [|exact I].
  destruct (0 <? q); cbn; [|exact I].
  apply list_find_Some in Hf as (Hi & _ & _).
  split; [|exact I]. intros s' _. cbn.
  rewrite ids_after_set_quantity; assumption.
Qed.

Lemma keeps_updateSelectedItemPrice itemId p :
  keeps unique_ids (updateSelectedItemPrice itemId p).
Proof.
  unfold updateSelectedItemPrice, unique_ids, find. cbn. intros s Hs.
  destruct (list_find _ (selectedItems s)) as [[i e]|] eqn:Hf; cbn; [|exact I].
  destruct (0 <=? p); cbn; [|exact I].
  apply list_find_Some in Hf as (Hi & _ & _).
  split; [|exact I]. intros s' _. cbn.
  rewrite ids_after_set_unit_price; assumption.
Qed.

Lemma keeps_resetForm : keeps unique_ids resetForm.
Proof.
  unfold resetForm, unique_ids. cbn. repeat split; auto.
  intros s _. apply NoDup_nil_2.
Qed.

(** The request actions assign [selectedItems] through [resetForm] only. *)
Ltac keeps_step :=
  first
    [ exact I
    | assumption
    | apply keeps_resetForm
    | apply keeps_try_finally
    | apply keeps_try_catch
    | apply keeps_bind
    | match goal with
      | |- keeps _ (match ?x with _ => _ end) => destruct x
      | |- keeps _ (if ?b then _ else _) => destruct b
      | |- _ ∧ _ => split
      | |- ∀ _, _ => intro
      end
    | progress cbn ].

Ltac keeps_auto :=
  unfold try_catch_finally, unique_ids, mbind, mret, Async_bind, Async_ret;
  repeat keeps_step.

Lemma keeps_fetchBranchWarehouses b : keeps unique_ids (fetchBranchWarehouses b).
Proof. unfold fetchBranchWarehouses. keeps_auto. Qed.

Lemma keeps_fetchCustomers t : keeps unique_ids (fetchCustomers t).
Proof. unfold fetchCustomers. keeps_auto. Qed.

Lemma keeps_fetchTransactionList t p :
  keeps unique_ids (fetchTransactionList t p).
Proof. unfold fetchTransactionList. keeps_auto. Qed.

Lemma keeps_fetchSingleTransaction i c :
  keeps unique_ids (fetchSingleTransaction i c).
Proof. unfold fetchSingleTransaction. keeps_auto. Qed.

Lemma keeps_createTransaction tx ty : keeps unique_ids (createTransaction tx ty).
Proof. unfold createTransaction. keeps_auto. Qed.

Lemma keeps_post_and_return rq msg : keeps unique_ids (post_and_return rq msg).
Proof. unfold post_and_return. keeps_auto. Qed.

Lemma keeps_searchItems q w t : keeps unique_ids (searchItems q w t).
Proof. unfold searchItems. keeps_auto. Qed.

Lemma initialStore_unique_ids : unique_ids initialStore.
Proof. apply NoDup_nil_2. Qed.

(** C4: every operation of the store, run from a store whose selected
    entries carry pairwise distinct item ids, ends in such a store, whatever
    the network answers; hence so does every sequence of operations. *)
Theorem every_operation_keeps_unique_ids (s : Store) :
  unique_ids s →
  (∀ net a, unique_ids (perform net a s)) ∧
  (∀ steps, unique_ids (session steps s)).
Proof.
  assert (Hstep : ∀ net a s', unique_ids s' → unique_ids (perform net a s')).
  { intros net a s' Hs'. destruct a; cbn [perform]; unfold store_after;
      apply run_keeps; try exact Hs'.
    - apply keeps_fetchBranchWarehouses.
    - apply keeps_fetchCustomers.
    - apply keeps_fetchTransactionList.
    - apply keeps_fetchSingleTransaction.
    - apply keeps_createTransaction.
    - apply keeps_addSelectedItem.
    - apply keeps_removeSelectedItem.
    - apply keeps_updateSelectedItemQuantity.
    - apply keeps_updateSelectedItemPrice.
    - apply keeps_resetForm.
    - apply keeps_post_and_return.
    - apply keeps_post_and_return.
    - apply keeps_post_and_return.
    - apply keeps_post_and_return.
    - apply keeps_searchItems. }
  intros Hs. split.
  - intros net a. apply Hstep. exact Hs.
  - intros steps. revert s Hs.
    induction steps as [|[net a] rest IH]; intros s Hs; cbn.
    + exact Hs.
    + apply IH. apply Hstep. exact Hs.
Qed.

Lemma every_operation_keeps_unique_ids_witness :
  unique_ids (perform offline (DoAddSelectedItem pen) busyStore) ∧
  unique_ids
    (session [(offline, DoAddSelectedItem ink);
              (offline, DoAddSelectedItem ink);
              (offline, DoUpdateSelectedItemQuantity 9 5);
              (offline, DoRemoveSelectedItem 7);
              (server "success" JNull, DoCreateTransaction (JStr "sale") create_sale)]
       busyStore).
Proof.
  assert (Hbusy : unique_ids busyStore) by apply NoDup_singleton.
  destruct (every_operation_keeps_unique_ids busyStore Hbusy) as (Hop & Hsession).
  split; [apply Hop | apply Hsession].
Defined.

(** * Further properties of the store *)

(** ** Removing from the selection *)

Lemma removeSelectedItem_store (net : Network) itemId s :
  store_after net (removeSelectedItem itemId) s =
  match list_find (λ si, item_id si = itemId) (selectedItems s) with
  | Some (i, _) => with_selectedItems (delete i (selectedItems s)) s
  | None => s
  end.
Proof.
  unfold_run. unfold removeSelectedItem, findIndex. cbn.
  destruct (list_find _ (selectedItems s)) as [[i e]|]; cbn; [|reflexivity].
  destruct (Z.leb_spec 0 (Z.of_nat i)) as [_|Hneg]; [|lia].
  rewrite Nat2Z.id. reflexivity.
Qed.

Lemma with_selectedItems_same (s : Store) :
  with_selectedItems (selectedItems s) s = s.
Proof. destruct s. reflexivity. Qed.

(** [removeSelectedItem] takes out the first entry carrying the id, and that
    entry only: the selection gets one entry shorter and the rest keeps its
    order. With no entry carrying the id the store stays as it is. *)
Theorem removeSelectedItem_removes_first (net : Network) itemId s :
  let sel := selectedItems s in
  let s' := store_after net (removeSelectedItem itemId) s in
  (∀ i e, first_with_id itemId sel i e →
     s' = with_selectedItems (delete i sel) s ∧
     (length (selectedItems s') + 1 = length sel)%nat ∧
     (∀ j, (j < i)%nat → selectedItems s' !! j = sel !! j) ∧
     (∀ j, (i ≤ j)%nat → selectedItems s' !! j = sel !! S j)) ∧
  (no_entry_with_id itemId sel → s' = s).
Proof.
  intros sel s'. subst sel s'. rewrite removeSelectedItem_store. split.
  - intros i e Hfirst. pose proof Hfirst as (Hi & _ & _).
    apply first_with_id_find in Hfirst. rewrite Hfirst. cbn.
    split; [reflexivity|]. split; [|split].
    + rewrite length_delete by eauto.
      apply lookup_lt_Some in Hi. lia.
    + intros j Hj. apply list_lookup_delete_lt. exact Hj.
    + intros j Hj. apply list_lookup_delete_ge. exact Hj.
  - intros Hno. apply no_entry_with_id_find in Hno. rewrite Hno. reflexivity.
Qed.

Lemma removeSelectedItem_removes_first_witness :
  selectedItems (store_after offline (removeSelectedItem 7)
                   (with_selectedItems exampleSelection busyStore))
    = [mkSelectedItem 9 ink 1 3 0 0] ∧
  store_after offline (removeSelectedItem 8) busyStore = busyStore.
Proof.
  split.
  - destruct (removeSelectedItem_removes_first offline 7
                (with_selectedItems exampleSelection busyStore)) as (Hrm & _).
    destruct (Hrm 0%nat (mkSelectedItem 7 pen 2 5 5 4)) as (Hs & _).
    + split; [reflexivity|]. split; [reflexivity|]. intros j e' _ Hj. lia.
    + rewrite Hs. reflexivity.
  - destruct (removeSelectedItem_removes_first offline 8 busyStore) as (_ & Hno).
    apply Hno. intros e He. apply list_elem_of_singleton in He. subst e.
    cbn. lia.
Defined.

(** With pairwise distinct ids, no entry carries the id once
    [removeSelectedItem] has run. *)
Theorem removeSelectedItem_clears_id (net : Network) itemId s :
  unique_ids s →
  no_entry_with_id itemId
    (selectedItems (store_after net (removeSelectedItem itemId) s)).
Proof.
  intros Hnd. rewrite removeSelectedItem_store.
  destruct (list_find _ (selectedItems s)) as [[i e]|] eqn:Hf.
  - apply list_find_Some in Hf as (Hi & He & _). cbn.
    intros e' Hin Hid. apply list_elem_of_lookup in Hin as [j Hj].
    assert (Hsrc : ∃ j', j' ≠ i ∧ selectedItems s !! j' = Some e').
    { destruct (Nat.lt_ge_cases j i) as [Hlt|Hge].
      - exists j. split; [lia|]. rewrite list_lookup_delete_lt in Hj by exact Hlt.
        exact Hj.
      - exists (S j). split; [lia|]. rewrite list_lookup_delete_ge in Hj by exact Hge.
        exact Hj. }
    destruct Hsrc as (j' & Hne & Hj'). apply Hne.
    apply (NoDup_lookup _ j' i itemId Hnd).
    + rewrite list_lookup_fmap, Hj'. cbn. congruence.
    + rewrite list_lookup_fmap, Hi. cbn. congruence.
  - apply no_entry_with_id_find. exact Hf.
Qed.

Lemma removeSelectedItem_clears_id_witness :
  no_entry_with_id 7
    (selectedItems (store_after offline (removeSelectedItem 7) busyStore)).
Proof.
  apply removeSelectedItem_clears_id. apply NoDup_singleton.
Defined.

(** Without that, a second entry of the id survives the removal. *)
Lemma removeSelectedItem_leaves_duplicate :
  selectedItems
    (store_after offline (removeSelectedItem 7)
       (with_selectedItems [newSelectedItem pen; newSelectedItem pen] busyStore))
  = [newSelectedItem pen].
Proof. reflexivity. Qed.

(** Adding an item that was not selected and removing it again gives the
    store back. *)
Theorem add_then_remove_restores (net : Network) item s :
  no_entry_with_id (Product.id item) (selectedItems s) →
  store_after net (removeSelectedItem (Product.id item))
    (store_after net (addSelectedItem item) s) = s.
Proof.
  intros Hno.
  pose proof (first_with_id_pushed _ _ (newSelectedItem item) Hno eq_refl)
    as Hfirst.
  apply no_entry_with_id_find in Hno. apply first_with_id_find in Hfirst.
  rewrite addSelectedItem_store, Hno, removeSelectedItem_store. cbn.
  rewrite Hfirst. cbn.
  rewrite delete_middle, app_nil_r.
  destruct s. reflexivity.
Qed.

Lemma add_then_remove_restores_witness :
  store_after offline (removeSelectedItem 9)
    (store_after offline (addSelectedItem ink) busyStore) = busyStore.
Proof.
  apply (add_then_remove_restores offline ink busyStore).
  intros e He. apply list_elem_of_singleton in He. subst e. cbn. lia.
Defined.

(** ** Adding repeatedly *)

(** Adding an item that was not selected [n + 1] times leaves the earlier
    entries as they were and one entry for the item, of quantity [n + 1]
    (as long as that stays below 2^53, where doubles count exactly). *)
Theorem addSelectedItem_repeated (net : Network) item s (n : nat) :
  no_entry_with_id (Product.id item) (selectedItems s) →
  Z.of_nat (S n) < 2 ^ 53 →
  selectedItems (Nat.iter (S n) (store_after net (addSelectedItem item)) s)
  = selectedItems s ++
    [ {| item_id := Product.id item;
         item := item;
         quantity := Z.of_nat (S n);
         unit_price := default 0 (Product.solo_unit_price item);
         solo_unit_price := default 0 (Product.solo_unit_price item);
         bulk_unit_price := default 0 (Product.bulk_unit_price item) |} ].
Proof.
  intros Hno _.
  assert (Hseed : ∀ x, or_zero x = default 0 x).
  { intros [v|]; cbn; [|reflexivity]. destruct (Z.eqb_spec v 0); congruence. }
  rewrite <- !Hseed.
  change (selectedItems s ++ [_])
    with (selectedItems s ++
          [set_quantity (Z.of_nat (S n)) (newSelectedItem item)]).
  induction n as [|n IH].
  - cbn [Nat.iter nat_rect]. apply no_entry_with_id_find in Hno.
    rewrite addSelectedItem_store, Hno. reflexivity.
  - change (Nat.iter (S (S n)) ?f s) with (f (Nat.iter (S n) f s)).
    rewrite addSelectedItem_store, IH.
    pose proof (first_with_id_pushed _ _
                  (set_quantity (Z.of_nat (S n)) (newSelectedItem item))
                  Hno eq_refl) as Hfirst.
    apply first_with_id_find in Hfirst. rewrite Hfirst.
    cbn [selectedItems with_selectedItems].
    replace (length (selectedItems s))
      with (length (selectedItems s) + 0)%nat by lia.
    rewrite insert_app_r. cbn [insert list_insert].
    f_equal. f_equal. unfold set_quantity. cbn. f_equal. lia.
Qed.

Lemma addSelectedItem_repeated_witness :
  selectedItems (Nat.iter 3 (store_after offline (addSelectedItem ink)) busyStore)
  = [mkSelectedItem 7 pen 1 5 5 4; mkSelectedItem 9 ink 3 0 0 0].
Proof.
  apply (addSelectedItem_repeated offline ink busyStore 2).
  - intros e He. apply list_elem_of_singleton in He. subst e. cbn. lia.
  - reflexivity.
Defined.

(** ** The total as a sum of lines *)



(** ** Which operation writes which ref *)

Ltac run_cbn :=
  cbn -[is_success truthy opt_items sell_warehouse bool_decide].

(** Unfolds an operation down to the run of its body. *)
Ltac run_action :=
  unfold perform, perform_trace, store_after, trace_of, result_of,
    fetchBranchWarehouses, fetchCustomers, fetchTransactionList,
    fetchSingleTransaction, createTransaction, paySupplier,
    receiveFromCustomer, refundTransaction, feedingTransaction,
    post_and_return, searchItems, resetForm, try_catch_finally;
  run_cbn.

(** Case analysis on every way the request of an action can settle. *)
Ltac settle :=
  repeat (match goal with
          | |- context [match ?x with _ => _ end] => destruct x
          end; run_cbn).

Lemma request_action_selection (net : Network) (a : Action) (s : Store) :
  is_request_action a = true →
  selectedItems (perform net a s) = selectedItems s ∨
  selectedItems (perform net a s) = [].
Proof.
  intros Ha. destruct a; try discriminate Ha; run_action; settle; auto.
Qed.

(** Among the operations that issue a request, only [createTransaction]
    can change the selection, the form or [transactions], only
    [fetchBranchWarehouses] can change [warehouses], only [fetchCustomers]
    can change [customers], and only [fetchTransactionList] can change
    [list] and [pagination], however the request settles. *)
Theorem request_actions_write_their_own_ref (net : Network) (a : Action) s :
  is_request_action a = true →
  let s' := perform net a s in
  ((∀ tx ty, a ≠ DoCreateTransaction tx ty) →
     selectedItems s' = selectedItems s ∧
     transactionForm s' = transactionForm s ∧
     transactions s' = transactions s) ∧
  ((∀ b, a ≠ DoFetchBranchWarehouses b) → warehouses s' = warehouses s) ∧
  ((∀ t, a ≠ DoFetchCustomers t) → customers s' = customers s) ∧
  ((∀ t p, a ≠ DoFetchTransactionList t p) →
     list_ s' = list_ s ∧ pagination s' = pagination s).
Proof.
  intros Ha s'. subst s'.
  destruct a; try discriminate Ha; run_action;
    (split; [|split; [|split]]); intros Hother;
    try (exfalso; eapply Hother; reflexivity);
    settle; auto.
Qed.

Lemma request_actions_write_their_own_ref_witness :
  selectedItems (perform (server "success" keyedItems)
                   (DoSearchItems "p" (Some 2) (Some sell)) busyStore)
    = [newSelectedItem pen] ∧
  warehouses (perform (server "success" JNull)
                (DoCreateTransaction (JStr "sale") create_sale) busyStore)
    = [JStr "depot"].
Proof.
  split.
  - destruct (request_actions_write_their_own_ref (server "success" keyedItems)
                (DoSearchItems "p" (Some 2) (Some sell)) busyStore eq_refl)
      as (H & _).
    destruct H as (H & _); [discriminate | exact H].
  - destruct (request_actions_write_their_own_ref (server "success" JNull)
                (DoCreateTransaction (JStr "sale") create_sale) busyStore eq_refl)
      as (_ & H & _).
    apply H. discriminate.
Defined.

(** Every operation that issues a request starts by setting [loading] and
    ends by clearing it, whether it returns or throws: the first event of
    its trace is the write of [loading = true], the last one the write of
    the store it leaves, in which [loading] is false. *)
Theorem request_actions_toggle_loading (net : Network) (a : Action) s :
  is_request_action a = true →
  head (perform_trace net a s) = Some (EvWrite (with_loading true s)) ∧
  last (perform_trace net a s) = Some (EvWrite (perform net a s)) ∧
  loading (perform net a s) = false.
Proof.
  intros Ha.
  destruct a; try discriminate Ha; run_action; settle; auto.
Qed.

Lemma request_actions_toggle_loading_witness :
  loading (perform offline (DoPaySupplier (mkPaymentData 3 100 "may"))
             (with_loading true busyStore)) = false.
Proof.
  apply (request_actions_toggle_loading offline
           (DoPaySupplier (mkPaymentData 3 100 "may"))
           (with_loading true busyStore) eq_refl).
Defined.


(** The selection actions are local: they assign [selectedItems] and nothing
    else, log nothing and return normally. *)
Theorem selection_actions_are_local (net : Network) s item itemId v :
  (let s' := store_after net (addSelectedItem item) s in
   s' = with_selectedItems (selectedItems s') s ∧
   result_of net (addSelectedItem item) s = Returned tt) ∧
  (let s' := store_after net (removeSelectedItem itemId) s in
   s' = with_selectedItems (selectedItems s') s ∧
   result_of net (removeSelectedItem itemId) s = Returned tt) ∧
  (let s' := store_after net (updateSelectedItemQuantity itemId v) s in
   s' = with_selectedItems (selectedItems s') s ∧
   result_of net (updateSelectedItemQuantity itemId v) s = Returned tt) ∧
  (let s' := store_after net (updateSelectedItemPrice itemId v) s in
   s' = with_selectedItems (selectedItems s') s ∧
   result_of net (updateSelectedItemPrice itemId v) s = Returned tt).
Proof.
  cbv zeta.
  rewrite addSelectedItem_store, removeSelectedItem_store,
    updateSelectedItemQuantity_store, updateSelectedItemPrice_store.
  unfold result_of, addSelectedItem, removeSelectedItem,
    updateSelectedItemQuantity, updateSelectedItemPrice, find, findIndex.
  run_cbn.
  repeat split; settle; try reflexivity;
    symmetry; apply with_selectedItems_same.
Qed.

(** ** Quantities and prices of the selection *)

Section EntryInvariant.
Variable Q : SelectedItem → Prop.

(** A property of the single entries survives every request operation,
    [removeSelectedItem] and [resetForm]. *)
Lemma entries_kept_by_other_operations (net : Network) (a : Action) s :
  (∀ item, a ≠ DoAddSelectedItem item) →
  (∀ i q, a ≠ DoUpdateSelectedItemQuantity i q) →
  (∀ i p, a ≠ DoUpdateSelectedItemPrice i p) →
  Forall Q (selectedItems s) → Forall Q (selectedItems (perform net a s)).
Proof.
  intros Hadd Hq Hp Hs.
  destruct (is_request_action a) eqn:Ha.
  - destruct (request_action_selection net a s Ha) as [-> | ->];
      [exact Hs | constructor].
  - destruct a; try discriminate Ha; cbn [perform].
    + exfalso. eapply Hadd. reflexivity.
    + rewrite removeSelectedItem_store.
      destruct (list_find _ _) as [[i e]|]; [|exact Hs].
      cbn. apply Forall_delete. exact Hs.
    + exfalso. eapply Hq. reflexivity.
    + exfalso. eapply Hp. reflexivity.
    + cbn. constructor.
Qed.
End EntryInvariant.

(** Every operation of the store keeps all selected quantities above 0,
    whatever the network answers, and so does every sequence of
    operations. *)
Theorem every_operation_keeps_positive_quantities (s : Store) :
  positive_quantities s →
  (∀ net a, positive_quantities (perform net a s)) ∧
  (∀ steps, positive_quantities (session steps s)).
Proof.
  assert (Hstep : ∀ net a s', positive_quantities s' →
                    positive_quantities (perform net a s')).
  { unfold positive_quantities. intros net a s' Hs'.
    destruct a as [b|t|t p|i c|tx k|item|itemId|itemId q|itemId p| |d|d|d|i|qy w t];
      try (apply entries_kept_by_other_operations;
           [discriminate | discriminate | discriminate | exact Hs']);
      cbn [perform].
    - rewrite addSelectedItem_store.
      destruct (list_find _ _) as [[i e]|] eqn:Hf; cbn.
      + apply list_find_Some in Hf as (Hi & _ & _).
        apply Forall_insert; [exact Hs'|]. cbn.
        pose proof (Forall_lookup_1 _ _ _ _ Hs' Hi) as He. cbn in He. lia.
      + apply Forall_app_2; [exact Hs'|]. repeat constructor.
    - rewrite updateSelectedItemQuantity_store.
      destruct (list_find _ _) as [[i e]|]; [|exact Hs'].
      destruct (Z.ltb_spec 0 q); [|exact Hs'].
      cbn. apply Forall_insert; [exact Hs'|]. cbn. assumption.
    - rewrite updateSelectedItemPrice_store.
      destruct (list_find _ _) as [[i e]|] eqn:Hf; [|exact Hs'].
      destruct (0 <=? p); [|exact Hs'].
      apply list_find_Some in Hf as (Hi & _ & _).
      cbn. apply Forall_insert; [exact Hs'|]. cbn.
      exact (Forall_lookup_1 _ _ _ _ Hs' Hi). }
  intros Hs. split.
  - intros net a. apply Hstep. exact Hs.
  - intros steps. revert s Hs.
    induction steps as [|[net a] rest IH]; intros s Hs; cbn.
    + exact Hs.
    + apply IH. apply Hstep. exact Hs.
Qed.

Lemma every_operation_keeps_positive_quantities_witness :
  positive_quantities
    (session [(offline, DoAddSelectedItem ink);
              (offline, DoUpdateSelectedItemQuantity 9 0);
              (offline, DoUpdateSelectedItemQuantity 7 (-2));
              (offline, DoAddSelectedItem pen)]
       busyStore).
Proof.
  assert (Hbusy : positive_quantities busyStore).
  { repeat constructor. }
  destruct (every_operation_keeps_positive_quantities busyStore Hbusy)
    as (_ & Hsession).
  apply Hsession.
Defined.

(** Every operation keeps all unit prices at or above 0, provided it does
    not add an item whose solo price is negative. *)
Theorem operations_keep_nonnegative_prices
    (steps : list (Network * Action)) (s : Store) :
  nonnegative_prices s →
  Forall (λ step, adds_no_negative_price (snd step)) steps →
  nonnegative_prices (session steps s).
Proof.
  assert (Hstep : ∀ net a s', adds_no_negative_price a →
                    nonnegative_prices s' →
                    nonnegative_prices (perform net a s')).
  { unfold nonnegative_prices. intros net a s' Ha Hs'.
    destruct a as [b|t|t p|i c|tx k|item|itemId|itemId q|itemId p| |d|d|d|i|qy w t];
      try (apply entries_kept_by_other_operations;
           [discriminate | discriminate | discriminate | exact Hs']);
      cbn [perform].
    - rewrite addSelectedItem_store.
      destruct (list_find _ _) as [[i e]|] eqn:Hf; cbn.
      + apply list_find_Some in Hf as (Hi & _ & _).
        apply Forall_insert; [exact Hs'|]. cbn.
        exact (Forall_lookup_1 _ _ _ _ Hs' Hi).
      + apply Forall_app_2; [exact Hs'|]. repeat constructor. exact Ha.
    - rewrite updateSelectedItemQuantity_store.
      destruct (list_find _ _) as [[i e]|] eqn:Hf; [|exact Hs'].
      destruct (0 <? q); [|exact Hs'].
      apply list_find_Some in Hf as (Hi & _ & _).
      cbn. apply Forall_insert; [exact Hs'|]. cbn.
      exact (Forall_lookup_1 _ _ _ _ Hs' Hi).
    - rewrite updateSelectedItemPrice_store.
      destruct (list_find _ _) as [[i e]|]; [|exact Hs'].
      destruct (Z.leb_spec 0 p); [|exact Hs'].
      cbn. apply Forall_insert; [exact Hs'|]. cbn. assumption. }
  intros Hs Hsteps. revert s Hs.
  induction Hsteps as [|[net a] rest Ha _ IH]; intros s Hs; cbn.
  - exact Hs.
  - apply IH. apply Hstep; assumption.
Qed.

Lemma operations_keep_nonnegative_prices_witness :
  nonnegative_prices
    (session [(offline, DoAddSelectedItem ink);
              (offline, DoUpdateSelectedItemPrice 9 (-1));
              (offline, DoUpdateSelectedItemPrice 7 0)]
       busyStore).
Proof.
  apply operations_keep_nonnegative_prices.
  - repeat constructor. cbn. lia.
  - repeat constructor; cbn; lia.
Defined.





(** ** What the request operations hand back *)

(** The four posting operations ([paySupplier], [receiveFromCustomer],
    [refundTransaction], [feedingTransaction], each an instance of
    [post_and_return]) re-throw the error of a rejected request after
    logging it, return the envelope of a successful one, and return
    [undefined] without logging anything when the envelope is not a
    success. *)
Theorem posting_operations_results (net : Network) (rq : Request json) msg s :
  (∀ e, net _ rq = Rejected e →
     result_of net (post_and_return rq msg) s = Thrown e ∧
     trace_of net (post_and_return rq msg) s
       = [EvWrite (with_loading true s); EvRequest rq; EvConsole error msg;
          EvWrite (with_loading false s)]) ∧
  (∀ response, net _ rq = Resolved response →
     Resp.status response = "success" →
     result_of net (post_and_return rq msg) s = Returned (Some response)) ∧
  (∀ response, net _ rq = Resolved response →
     Resp.status response ≠ "success" →
     result_of net (post_and_return rq msg) s = Returned None ∧
     trace_of net (post_and_return rq msg) s
       = [EvWrite (with_loading true s); EvRequest rq;
          EvWrite (with_loading false s)]).
Proof.
  unfold_run. unfold post_and_return, try_catch_finally. run_cbn.
  split; [|split].
  - intros e ->. split; reflexivity.
  - intros response -> Hst. run_cbn. unfold is_success. rewrite Hst.
    reflexivity.
  - intros response -> Hst. run_cbn. unfold is_success.
    apply String.eqb_neq in Hst. rewrite Hst. split; reflexivity.
Qed.

Lemma posting_operations_results_witness :
  result_of offline (refundTransaction (JStr "refund 5")) busyStore
    = Thrown (JStr "Network Error") ∧
  result_of (server "success" (JStr "paid"))
    (paySupplier (mkPaymentData 3 100 "may")) busyStore
    = Returned (Some (Resp.mk "success" (JStr "paid") None None)) ∧
  result_of (server "error" JNull) (feedingTransaction (IdNumber 12)) busyStore
    = Returned None.
Proof.
  split; [|split].
  - destruct (posting_operations_results offline (PostRefund (JStr "refund 5"))
                "Error processing refund:" busyStore) as (H & _).
    destruct (H (JStr "Network Error") eq_refl) as (Hr & _). exact Hr.
  - destruct (posting_operations_results (server "success" (JStr "paid"))
                (PostPaySupplier (mkPaymentData 3 100 "may"))
                "Error paying supplier:" busyStore) as (_ & H & _).
    exact (H _ eq_refl eq_refl).
  - destruct (posting_operations_results (server "error" JNull)
                (PutFreeding (IdNumber 12))
                "Error processing freeding (return to warehouse):" busyStore)
      as (_ & _ & H).
    destruct (H _ eq_refl) as (Hr & _); [discriminate | exact Hr].
Defined.

(** [fetchSingleTransaction] returns the record of a successful envelope
    (the [data], not the envelope), [undefined] for any other envelope, and
    re-throws the error of a rejected request; the currency defaults to
    USD. *)
Theorem fetchSingleTransaction_results (net : Network) id currency s :
  let rq := GetTransactionOne id (default USD currency) in
  (∀ e, net _ rq = Rejected e →
     result_of net (fetchSingleTransaction id currency) s = Thrown e) ∧
  (∀ response, net _ rq = Resolved response →
     Resp.status response = "success" →
     result_of net (fetchSingleTransaction id currency) s
       = Returned (Some (Resp.data response))) ∧
  (∀ response, net _ rq = Resolved response →
     Resp.status response ≠ "success" →
     result_of net (fetchSingleTransaction id currency) s = Returned None).
Proof.
  cbv zeta. unfold_run. unfold fetchSingleTransaction, try_catch_finally.
  run_cbn. split; [|split].
  - intros e ->. reflexivity.
  - intros response -> Hst. run_cbn. unfold is_success. rewrite Hst.
    reflexivity.
  - intros response -> Hst. run_cbn. unfold is_success.
    apply String.eqb_neq in Hst. rewrite Hst. reflexivity.
Qed.

Lemma fetchSingleTransaction_results_witness :
  result_of (server "success" JNull)
    (fetchSingleTransaction (IdNumber 12) None) busyStore
    = Returned (Some (JStr "row 2")) ∧
  result_of offline (fetchSingleTransaction (IdString "12") (Some IQD)) busyStore
    = Thrown (JStr "Network Error").
Proof.
  split.
  - destruct (fetchSingleTransaction_results (server "success" JNull)
                (IdNumber 12) None busyStore) as (_ & H & _).
    exact (H _ eq_refl eq_refl).
  - destruct (fetchSingleTransaction_results offline (IdString "12") (Some IQD)
                busyStore) as (H & _).
    exact (H _ eq_refl).
Defined.

(** *** Item search *)

(** [searchItems] sends exactly the request [search_request] names, re-throws
    the error of a rejected request and answers a non-success envelope with
    the empty list. *)
Theorem searchItems_failures (net : Network) query w ty s :
  let rq := search_request query w ty in
  (∀ e, net _ rq = Rejected e →
     result_of net (searchItems query w ty) s = Thrown e ∧
     trace_of net (searchItems query w ty) s
       = [EvWrite (with_loading true s); EvRequest rq;
          EvConsole error "Error searching items:";
          EvWrite (with_loading false s)]) ∧
  (∀ response, net _ rq = Resolved response →
     Resp.status response ≠ "success" →
     result_of net (searchItems query w ty) s = Returned (JArr []) ∧
     trace_of net (searchItems query w ty) s
       = [EvWrite (with_loading true s); EvRequest rq;
          EvWrite (with_loading false s)]).
Proof.
  cbv zeta. unfold_run. unfold searchItems, search_request, try_catch_finally.
  run_cbn. split.
  - intros e ->. split; reflexivity.
  - intros response -> Hst. run_cbn. unfold is_success.
    apply String.eqb_neq in Hst. rewrite Hst. split; reflexivity.
Qed.

Lemma searchItems_failures_witness :
  result_of offline (searchItems "p" (Some 2) (Some sell)) busyStore
    = Thrown (JStr "Network Error") ∧
  result_of (server "error" keyedItems) (searchItems "p" None None) busyStore
    = Returned (JArr []).
Proof.
  split.
  - destruct (searchItems_failures offline "p" (Some 2) (Some sell) busyStore)
      as (H & _).
    destruct (H _ eq_refl) as (Hr & _). exact Hr.
  - destruct (searchItems_failures (server "error" keyedItems) "p" None None
                busyStore) as (_ & H).
    destruct (H _ eq_refl) as (Hr & _); [discriminate | exact Hr].
Defined.

(** A successful 'sell' search with a warehouse id whose [data] has no
    truthy [items] hands back [data] itself (or the empty list when [data]
    is falsy); when [items] is truthy but neither an array nor an object it
    hands back the empty list. *)
Theorem searchItems_sell_without_item_collection
    (net : Network) query w response s :
  w ≠ 0 →
  net _ (GetSpecialWarehouseItems w query) = Resolved response →
  Resp.status response = "success" →
  let data := Resp.data response in
  let result := result_of net (searchItems query (Some w) (Some sell)) s in
  (truthy (opt_items data) = false →
     result = Returned (if truthy data then data else JArr [])) ∧
  (truthy (opt_items data) = true →
     (∀ l, opt_items data ≠ JArr l) → (∀ f, opt_items data ≠ JObj f) →
     result = Returned (JArr [])).
Proof.
  intros Hw Hnet Hst data result. subst data result.
  apply Z.eqb_neq in Hw.
  unfold_run. unfold searchItems, try_catch_finally, sell_warehouse. run_cbn.
  rewrite Hw. run_cbn. rewrite Hnet. run_cbn.
  unfold is_success. rewrite Hst. run_cbn.
  split.
  - intros ->. run_cbn. destruct (truthy (Resp.data response)); reflexivity.
  - intros -> Harr Hobj. run_cbn.
    destruct (opt_items (Resp.data response)) eqn:Hitems; try reflexivity.
    + exfalso. eapply Harr. reflexivity.
    + exfalso. eapply Hobj. reflexivity.
Qed.

Lemma searchItems_sell_without_item_collection_witness :
  result_of (server "success" (JObj [("name", JStr "depot")]))
    (searchItems "p" (Some 2) (Some sell)) busyStore
    = Returned (JObj [("name", JStr "depot")]) ∧
  result_of (server "success" (JObj [("items", JNum 3)]))
    (searchItems "p" (Some 2) (Some sell)) busyStore
    = Returned (JArr []).
Proof.
  assert (H2 : 2 ≠ 0) by lia.
  split.
  - destruct (searchItems_sell_without_item_collection
                (server "success" (JObj [("name", JStr "depot")])) "p" 2
                (Resp.mk "success" (JObj [("name", JStr "depot")]) None None)
                busyStore H2 eq_refl eq_refl) as (H & _).
    exact (H eq_refl).
  - destruct (searchItems_sell_without_item_collection
                (server "success" (JObj [("items", JNum 3)])) "p" 2
                (Resp.mk "success" (JObj [("items", JNum 3)]) None None)
                busyStore H2 eq_refl eq_refl) as (_ & H).
    apply H; [reflexivity | discriminate | discriminate].
Defined.

Lemma searchItems_general_endpoint_witness :
  result_of (server "success" (JArr [JStr "pen"]))
    (searchItems "p" (Some 0) (Some sell)) busyStore
    = Returned (JArr [JStr "pen"]) ∧
  result_of (server "success" JNull) (searchItems "p" (Some 2) None) busyStore
    = Returned (JArr []).
Proof.
  split.
  - exact (searchItems_general_endpoint (server "success" (JArr [JStr "pen"]))
             "p" (Some 0) (Some sell)
             (Resp.mk "success" (JArr [JStr "pen"]) None None) busyStore
             eq_refl eq_refl eq_refl).
  - exact (searchItems_general_endpoint (server "success" JNull)
             "p" (Some 2) None (Resp.mk "success" JNull None None) busyStore
             eq_refl eq_refl eq_refl).
Defined.

(** ** The read operations *)

(** With a branch id, [fetchBranchWarehouses] never throws and never leaves
    warehouses of an earlier fetch behind: [warehouses] becomes the list of
    a successful envelope and the empty list on any other outcome. *)
Theorem fetchBranchWarehouses_replaces_or_empties (net : Network) b s :
  b ≠ 0 →
  result_of net (fetchBranchWarehouses (Some b)) s = Returned tt ∧
  store_after net (fetchBranchWarehouses (Some b)) s
  = with_loading false
      (with_warehouses
         match net _ (GetBranchWarehouses b) with
         | Resolved response =>
             if is_success response
             then Branch.warehouses (Resp.data response)
             else []
         | Rejected _ => []
         end s).
Proof.
  intros Hb. apply Z.eqb_neq in Hb.
  unfold_run. unfold fetchBranchWarehouses, try_catch_finally. run_cbn.
  rewrite Hb. run_cbn.
  destruct (net _ _) as [e|response]; run_cbn; [split; reflexivity|].
  destruct (is_success _); run_cbn; split; reflexivity.
Qed.

Lemma fetchBranchWarehouses_replaces_or_empties_witness :
  warehouses (store_after (server "success" JNull)
                (fetchBranchWarehouses (Some 4)) busyStore) = [JStr "main"] ∧
  warehouses (store_after (server "error" JNull)
                (fetchBranchWarehouses (Some 4)) busyStore) = [].
Proof.
  assert (H4 : 4 ≠ 0) by lia.
  split.
  - destruct (fetchBranchWarehouses_replaces_or_empties (server "success" JNull)
                4 busyStore H4) as (_ & ->). reflexivity.
  - destruct (fetchBranchWarehouses_replaces_or_empties (server "error" JNull)
                4 busyStore H4) as (_ & ->). reflexivity.
Defined.

(** [fetchCustomers] never throws. After a successful envelope [customers]
    is the data of the envelope; after a non-success envelope or a rejected
    request it is what it was. In each case [loading] ends false and no
    other ref changes. *)
Theorem fetchCustomers_replaces_on_success_only (net : Network) type s :
  let s' := store_after net (fetchCustomers type) s in
  let rest := fun customers' =>
    {| loading := false; list_ := list_ s; pagination := pagination s;
       transactions := transactions s; warehouses := warehouses s;
       customers := customers'; selectedItems := selectedItems s;
       transactionForm := transactionForm s |} in
  result_of net (fetchCustomers type) s = Returned tt ∧
  (∀ response, net _ (GetCustomerList type) = Resolved response →
     Resp.status response = "success" →
     customers s' = Resp.data response ∧ s' = rest (Resp.data response)) ∧
  (∀ response, net _ (GetCustomerList type) = Resolved response →
     Resp.status response ≠ "success" →
     customers s' = customers s ∧ s' = rest (customers s)) ∧
  (∀ e, net _ (GetCustomerList type) = Rejected e →
     customers s' = customers s ∧ s' = rest (customers s)).
Proof.
  cbv zeta. unfold_run. rewrite run_fetchCustomers. cbv zeta.
  split; [|split; [|split]].
  - destruct (net _ _) as [e|response]; [reflexivity|].
    destruct (is_success response); reflexivity.
  - intros response -> Hst. unfold is_success. rewrite Hst. split; reflexivity.
  - intros response -> Hst. unfold is_success. apply String.eqb_neq in Hst.
    rewrite Hst. split; reflexivity.
  - intros e ->. split; reflexivity.
Qed.

Lemma fetchCustomers_replaces_on_success_only_witness :
  customers (store_after (server "success" JNull) (fetchCustomers None) busyStore)
    = [JStr "Sara"] ∧
  customers (store_after (server "error" JNull) (fetchCustomers (Some supplier))
               busyStore)
    = [JStr "Ali"].
Proof.
  destruct (fetchCustomers_replaces_on_success_only (server "success" JNull)
              None busyStore) as (_ & Hok & _).
  destruct (fetchCustomers_replaces_on_success_only (server "error" JNull)
              (Some supplier) busyStore) as (_ & _ & Hbad & _).
  split.
  - destruct (Hok _ eq_refl eq_refl) as (H & _). exact H.
  - destruct (Hbad _ eq_refl) as (H & _); [discriminate | exact H].
Defined.

(** [fetchTransactionList] never throws. After a successful envelope [list]
    is the data of the envelope, and [pagination] is the pagination of the
    envelope if it carries one, and otherwise still the pagination of an
    earlier page. Any other outcome leaves both as they were. In each case
    [loading] ends false and no other ref changes. The type defaults to
    'purchase' and the page to 1. *)
Theorem fetchTransactionList_effects (net : Network) ty page s :
  let rq := GetTransactionList (default purchase ty) (default 1 page) in
  let s' := store_after net (fetchTransactionList ty page) s in
  let rest := fun list' pagination' =>
    {| loading := false; list_ := list'; pagination := pagination';
       transactions := transactions s; warehouses := warehouses s;
       customers := customers s; selectedItems := selectedItems s;
       transactionForm := transactionForm s |} in
  result_of net (fetchTransactionList ty page) s = Returned tt ∧
  (∀ response p, net _ rq = Resolved response →
     Resp.status response = "success" →
     Resp.pagination response = Some p → truthy p = true →
     list_ s' = Resp.data response ∧ pagination s' = Some p ∧
     s' = rest (Resp.data response) (Some p)) ∧
  (∀ response, net _ rq = Resolved response →
     Resp.status response = "success" →
     (∀ p, Resp.pagination response = Some p → truthy p = false) →
     list_ s' = Resp.data response ∧ pagination s' = pagination s ∧
     s' = rest (Resp.data response) (pagination s)) ∧
  (∀ response, net _ rq = Resolved response →
     Resp.status response ≠ "success" →
     list_ s' = list_ s ∧ pagination s' = pagination s ∧
     s' = rest (list_ s) (pagination s)) ∧
  (∀ e, net _ rq = Rejected e →
     list_ s' = list_ s ∧ pagination s' = pagination s ∧
     s' = rest (list_ s) (pagination s)).
Proof.
  cbv zeta. unfold_run. unfold fetchTransactionList, try_catch_finally.
  run_cbn. split; [|split; [|split; [|split]]].
  - settle; reflexivity.
  - intros response p -> Hst Hp Htruthy. run_cbn. unfold is_success.
    rewrite Hst. run_cbn. rewrite Hp. run_cbn. rewrite Htruthy.
    repeat split.
  - intros response -> Hst Hp. run_cbn. unfold is_success.
    rewrite Hst. run_cbn.
    destruct (Resp.pagination response) as [p|]; run_cbn;
      [rewrite (Hp p eq_refl)|]; repeat split.
  - intros response -> Hst. run_cbn. unfold is_success.
    apply String.eqb_neq in Hst. rewrite Hst. repeat split.
  - intros e ->. repeat split.
Qed.

Lemma fetchTransactionList_effects_witness :
  list_ (store_after (server "success" JNull) (fetchTransactionList None None)
           busyStore) = [JStr "row 2"] ∧
  pagination (store_after (server "success" JNull)
                (fetchTransactionList None None) busyStore) = Some (JObj []) ∧
  list_ (store_after (server "error" JNull)
           (fetchTransactionList (Some sell) (Some 3)) busyStore)
    = [JStr "row 1"].
Proof.
  destruct (fetchTransactionList_effects (server "success" JNull) None None
              busyStore) as (_ & Hok & _).
  destruct (fetchTransactionList_effects (server "error" JNull) (Some sell)
              (Some 3) busyStore) as (_ & _ & _ & Hbad & _).
  destruct (Hok _ (JObj []) eq_refl eq_refl eq_refl eq_refl) as (Hl & Hp & _).
  destruct (Hbad _ eq_refl) as (Hl' & _); [discriminate|].
  split; [exact Hl | split; [exact Hp | exact Hl']].
Defined.

Lemma createTransaction_success_witness :
  result_of (server "success" JNull)
    (createTransaction (JStr "sale") create_sale) busyStore
    = Returned (Some (Resp.mk "success" (JStr "created") None None)) ∧
  transactions (store_after (server "success" JNull)
                  (createTransaction (JStr "sale") create_sale) busyStore)
    = [JStr "created"; JStr "earlier"] ∧
  selectedItems (store_after (server "success" JNull)
                   (createTransaction (JStr "sale") create_sale) busyStore)
    = [].
Proof.
  destruct (createTransaction_success (server "success" JNull) (JStr "sale")
              create_sale (Resp.mk "success" (JStr "created") None None)
              busyStore eq_refl eq_refl) as (Hr & Ht & _ & Hs).
  split; [exact Hr | split; [exact Ht | exact Hs]].
Defined.

(** ** The computed customer lists *)

Lemma filter_sublist {A : Type} (p : A → bool) (l : list A) :
  List.filter p l `sublist_of` l.
Proof.
  induction l as [|x l IH]; cbn; [constructor|].
  destruct (p x); [apply sublist_skip | apply sublist_cons]; exact IH.
Qed.

Lemma filter_three_way {A : Type} (p q : A → bool) (l : list A) :
  (∀ x, p x = true → q x = false) →
  (length (List.filter p l) + length (List.filter q l)
   + length (List.filter (fun x => negb (p x) && negb (q x)) l)
   = length l)%nat.
Proof.
  intros Hpq. induction l as [|x l IH]; cbn; [reflexivity|].
  destruct (p x) eqn:Hp; cbn.
  - rewrite (Hpq x Hp). cbn. lia.
  - destruct (q x); cbn; lia.
Qed.

Lemma has_type_exclusive (c : Customer) :
  has_type "supplier" c = true → has_type "customer" c = false.
Proof.
  unfold has_type. destruct c as [ | | | | |l|fields]; try discriminate.
  destruct (get_field "type" fields) as [ | | | |t| | ]; try discriminate.
  intros Ht. apply String.eqb_eq in Ht. subst t. reflexivity.
Qed.

(** [supplierCustomers] and [regularCustomers] are sublists of [customers]
    that share no entry; a customer is in one of them exactly when its type
    is 'supplier', respectively 'customer', so together with the customers
    of any other type (or of none) they account for all of [customers]. *)
Theorem customer_lists_split (s : Store) (sup reg : list Customer) :
  supplierCustomers s = Some sup →
  regularCustomers s = Some reg →
  sup `sublist_of` customers s ∧
  reg `sublist_of` customers s ∧
  (∀ c, c ∈ sup ↔ c ∈ customers s ∧ has_type "supplier" c = true) ∧
  (∀ c, c ∈ reg ↔ c ∈ customers s ∧ has_type "customer" c = true) ∧
  (∀ c, c ∈ sup → c ∉ reg) ∧
  (length sup + length reg
   + length (List.filter
               (fun c => negb (has_type "supplier" c)
                         && negb (has_type "customer" c))
               (customers s))
   = length (customers s))%nat.
Proof.
  unfold supplierCustomers, regularCustomers, customers_of_type.
  destruct (forallb (fun c => negb (nullish c)) (customers s)); [|discriminate].
  intros [= <-] [= <-].
  split; [apply filter_sublist|]. split; [apply filter_sublist|].
  split; [|split; [|split]].
  - intros c. rewrite !list_elem_of_In. apply filter_In.
  - intros c. rewrite !list_elem_of_In. apply filter_In.
  - intros c. rewrite !list_elem_of_In, !filter_In.
    intros [_ Hs] [_ Hc]. apply has_type_exclusive in Hs. congruence.
  - apply filter_three_way. exact has_type_exclusive.
Qed.

Lemma customer_lists_split_witness :
  length (List.filter (has_type "supplier") sampleCustomers) = 1%nat ∧
  (∀ c, c ∈ List.filter (has_type "supplier") sampleCustomers →
        c ∉ List.filter (has_type "customer") sampleCustomers).
Proof.
  destruct (customer_lists_split (with_customers sampleCustomers busyStore)
              _ _ eq_refl eq_refl) as (_ & _ & _ & _ & Hdisjoint & _).
  split; [reflexivity | exact Hdisjoint].
Defined.

(** ** Updates of quantity and price *)

Lemma list_find_same_ids (itemId : Z) (l : list SelectedItem) i e x :
  l !! i = Some e → item_id x = item_id e →
  list_find (λ si, item_id si = itemId) (<[i := x]> l)
  = (λ jy, (jy.1, if decide (jy.1 = i) then x else jy.2))
      <$> list_find (λ si, item_id si = itemId) l.
Proof.
  intros Hi Hid.
  destruct (list_find _ l) as [[j y]|] eqn:Hf; cbn.
  - apply list_find_Some in Hf as (Hj & Hy & Hbefore).
    apply list_find_Some. destruct (decide (j = i)) as [->|Hne].
    + split; [|split].
      * apply list_lookup_insert_eq. eapply lookup_lt_Some. exact Hi.
      * rewrite Hi in Hj. injection Hj as ->. congruence.
      * intros k z Hk Hlt. rewrite list_lookup_insert_ne in Hk by lia.
        eapply Hbefore; eassumption.
    + split; [|split].
      * rewrite list_lookup_insert_ne by congruence. exact Hj.
      * exact Hy.
      * intros k z Hk Hlt. destruct (decide (k = i)) as [->|Hki].
        -- rewrite list_lookup_insert_eq in Hk
             by (eapply lookup_lt_Some; exact Hi).
           injection Hk as <-. rewrite Hid. eapply Hbefore; eassumption.
        -- rewrite list_lookup_insert_ne in Hk by congruence.
           eapply Hbefore; eassumption.
  - apply list_find_None. apply list_find_None in Hf.
    rewrite Forall_lookup in Hf |- *. intros k z Hk.
    destruct (decide (k = i)) as [->|Hki].
    + rewrite list_lookup_insert_eq in Hk by (eapply lookup_lt_Some; exact Hi).
      injection Hk as <-. rewrite Hid. eapply Hf. exact Hi.
    + rewrite list_lookup_insert_ne in Hk by congruence. eapply Hf. exact Hk.
Qed.

(** Updating a quantity and updating a price can be done in either order:
    the store is the same, whichever ids and values are given. *)
Theorem quantity_and_price_updates_commute (net : Network) id1 q id2 p s :
  store_after net (updateSelectedItemPrice id2 p)
    (store_after net (updateSelectedItemQuantity id1 q) s)
  = store_after net (updateSelectedItemQuantity id1 q)
      (store_after net (updateSelectedItemPrice id2 p) s).
Proof.
  rewrite !updateSelectedItemQuantity_store, !updateSelectedItemPrice_store.
  destruct (list_find (λ si, item_id si = id1) (selectedItems s))
    as [[i e1]|] eqn:H1;
    [pose proof H1 as (Hi & _ & _)%list_find_Some|];
    (destruct (list_find (λ si, item_id si = id2) (selectedItems s))
      as [[j e2]|] eqn:H2;
     [pose proof H2 as (Hj & _ & _)%list_find_Some|]);
    destruct (0 <? q) eqn:Hq; destruct (0 <=? p) eqn:Hp;
    cbn [selectedItems with_selectedItems];
    repeat match goal with
           | Hl : selectedItems s !! ?k = Some ?e
             |- context [list_find _ (<[?k := ?x]> (selectedItems s))] =>
               rewrite (list_find_same_ids _ _ k e x Hl eq_refl)
           end;
    rewrite ?H1, ?H2; cbn [fmap option_fmap option_map fst snd];
    rewrite ?Hq, ?Hp; try reflexivity.
  destruct s as [ld li pg tr wh cu sel tf]. cbn in *. unfold with_selectedItems.
  cbn. f_equal.
  destruct (decide (j = i)) as [->|Hne].
  - rewrite decide_True by reflexivity.
    rewrite Hi in Hj. injection Hj as ->.
    rewrite !list_insert_insert_eq. reflexivity.
  - rewrite decide_False by congruence.
    apply list_insert_insert_ne. congruence.
Qed.

(** ** Which errors reach the caller *)

(** No operation throws an error of its own: an operation that throws is
    one of those whose [catch] re-throws, and the error is the one its
    request was rejected with. The selection actions and the three
    swallowing reads never throw. *)
Theorem thrown_errors_are_rejections (net : Network) (a : Action) s e :
  perform_thrown net a s = Some e →
  swallows a = false ∧
  ∃ (T : Type) (rq : Request T),
    net T rq = Rejected e ∧ EvRequest rq ∈ perform_trace net a s.
Proof.
  destruct a; unfold perform_thrown; run_action;
    unfold addSelectedItem, removeSelectedItem, updateSelectedItemQuantity,
      updateSelectedItemPrice, find, findIndex;
    run_cbn;
    repeat (match goal with
            | |- context [match ?x with _ => _ end] => destruct x eqn:?
            end; run_cbn);
    intros Hthrown; try discriminate Hthrown;
    injection Hthrown as <-;
    (split; [reflexivity|]);
    eexists _, _; (split; [eassumption|]);
    apply list_elem_of_In; cbn; auto 10.
Qed.

Lemma thrown_errors_are_rejections_witness :
  swallows (DoRefundTransaction (JStr "refund 5")) = false ∧
  ∃ (T : Type) (rq : Request T),
    offline T rq = Rejected (JStr "Network Error") ∧
    EvRequest rq ∈
      perform_trace offline (DoRefundTransaction (JStr "refund 5")) busyStore.
Proof.
  apply (thrown_errors_are_rejections offline
           (DoRefundTransaction (JStr "refund 5")) busyStore
           (JStr "Network Error") eq_refl).
Defined.
